(** * Plano: geometry, snapping and validation core of [src/Plano.tsx]

    The component keeps a list of rectangular items on a stage and reacts to
    pointer events.  This development embeds the pure parts of the typed
    variant of the component (the untyped variant in the same file has the
    same [snap], [withinHandle], [depthExceeded], [onPointerDown],
    [onPointerMove] and [removeSelected], character for character) and
    proves the properties the specification states about them.

    Numbers.  A JavaScript [number] is modelled by an exact rational [Q];
    rounding error of binary64, the infinities and the sign of zero are not
    represented.  Where the source tests a number for truthiness
    ([it.qty || 0], [!stageHeight]) the operand is a [value], which adds the
    two non-numbers the test is there for: [undefined] and [NaN].

    Rounding decides what a second row alignment does, so row alignment is
    given a second time with the result of every arithmetic operation
    rounded ([alignItemToRowsR]); [binary64] is the rounding of the
    source. *)

From Stdlib Require Import QArith Qround Qabs ZArith Lia Lqa.
From Stdlib Require Import List String DecimalString DecimalNat Bool.
Import ListNotations.

Local Open Scope Q_scope.

(** ** JavaScript numbers and the [Math] functions the component calls *)

Module JS.

Inductive value : Type :=
| Undefined
| NaN
| Num (q : Q).

(** ToBoolean on a number or [undefined]: [0], [NaN] and [undefined] are
    falsy. *)
Definition truthy (v : value) : bool :=
  match v with
  | Num q => negb (Qeq_bool q 0)
  | NaN | Undefined => false
  end.

(** [a || b] *)
Definition or (a b : value) : value := if truthy a then a else b.

(** [a * b]; [undefined] converts to [NaN], and [NaN] is absorbing. *)
Definition mul (a b : value) : value :=
  match a, b with
  | Num p, Num q => Num (p * q)
  | _, _ => NaN
  end.

(** [a < b] on numbers, as a boolean. *)
Definition ltb (p q : Q) : bool := negb (Qle_bool q p).

(** [a > b]; any comparison with [NaN] is false. *)
Definition gt (a b : value) : bool :=
  match a, b with
  | Num p, Num q => ltb q p
  | _, _ => false
  end.

(** [Math.round]: nearest integer, ties towards plus infinity. *)
Definition round (q : Q) : Q := inject_Z (Qfloor (q + (1 # 2))).

(** [Math.ceil] *)
Definition ceil (q : Q) : Q := inject_Z (Qceiling q).

Definition max (p q : Q) : Q := if Qle_bool p q then q else p.
Definition min (p q : Q) : Q := if Qle_bool p q then p else q.
Definition abs (q : Q) : Q := Qabs q.

End JS.

(** ** Data model *)

Record PlanoItem : Type := mkItem {
  id : string;
  name : string;
  x : Q;
  y : Q;
  w : Q;
  h : Q;
  depth : JS.value;
  qty : JS.value;
  color : string
}.

Record DragState : Type := mkDrag {
  drag_id : string;
  offsetX : Q;
  offsetY : Q;
  resizing : bool
}.

Record MeasureState : Type := mkMeasure {
  active : bool;
  mx : Q;
  my : Q;
  mw : Q;
  mh : Q
}.

Record StageSize : Type := mkStage {
  width : Q;
  height : Q
}.

(** The React state of the component: one field per [useState]. *)
Record State : Type := mkState {
  gridSize : Q;
  containerDepth : Q;
  measureMode : bool;
  rowCount : Q;
  stageSize : StageSize;
  items : list PlanoItem;
  selectedId : option string;
  drag : option DragState;
  measure : MeasureState
}.

(** ** Pure helpers of the source *)

(** [snap(value, grid) = Math.round(value / grid) * grid] *)
Definition snap (value grid : Q) : Q := JS.round (value / grid) * grid.

(** [withinHandle(x, y, item)] with its 14px handle. *)
Definition withinHandle (px py : Q) (item : PlanoItem) : bool :=
  let handleSize := 14 in
  Qle_bool (x item + w item - handleSize) px &&
  Qle_bool px (x item + w item) &&
  Qle_bool (y item + h item - handleSize) py &&
  Qle_bool py (y item + h item).

(** [depthExceeded]:
    [(it.qty || 0) * (it.depth || 0) > containerDepth] *)
Definition depthExceeded (containerDepth : Q) (it : PlanoItem) : bool :=
  JS.gt (JS.mul (JS.or (qty it) (JS.Num 0)) (JS.or (depth it) (JS.Num 0)))
        (JS.Num containerDepth).

(** Object spreads [{ ...it, k: v }] of the source, one per shape used. *)
Definition with_y (it : PlanoItem) (newY : Q) : PlanoItem :=
  mkItem (id it) (name it) (x it) newY (w it) (h it) (depth it) (qty it)
         (color it).

Definition with_xy (it : PlanoItem) (newX newY : Q) : PlanoItem :=
  mkItem (id it) (name it) newX newY (w it) (h it) (depth it) (qty it)
         (color it).

Definition with_wh (it : PlanoItem) (newW newH : Q) : PlanoItem :=
  mkItem (id it) (name it) (x it) (y it) newW newH (depth it) (qty it)
         (color it).

(** State setters ([setItems], [setSelectedId], [setDrag], [setMeasure]). *)
Definition setItems (st : State) (l : list PlanoItem) : State :=
  mkState (gridSize st) (containerDepth st) (measureMode st) (rowCount st)
          (stageSize st) l (selectedId st) (drag st) (measure st).

Definition setSelectedId (st : State) (s : option string) : State :=
  mkState (gridSize st) (containerDepth st) (measureMode st) (rowCount st)
          (stageSize st) (items st) s (drag st) (measure st).

Definition setDrag (st : State) (d : option DragState) : State :=
  mkState (gridSize st) (containerDepth st) (measureMode st) (rowCount st)
          (stageSize st) (items st) (selectedId st) d (measure st).

Definition setMeasure (st : State) (m : MeasureState) : State :=
  mkState (gridSize st) (containerDepth st) (measureMode st) (rowCount st)
          (stageSize st) (items st) (selectedId st) (drag st) m.

(** ** Row alignment and height validation *)

(** The value [newY] that [alignItemToRows] computes once its guard has
    passed: the item is put flush against the bottom of the row band its
    bottom edge lies in, and never above the top of the stage. *)
Definition alignedY (rowCount stageHeight : Q) (item : PlanoItem) : Q :=
  let rowHeight := stageHeight / rowCount in
  let itemBottom := y item + h item in
  let rawRow := JS.ceil (itemBottom / rowHeight) - 1 in
  let rowIndex := JS.max 0 (JS.min (rowCount - 1) rawRow) in
  let baseline := JS.min stageHeight (rowHeight * (rowIndex + 1)) in
  JS.max 0 (baseline - h item).

(** [alignItemToRows(item, stageHeight?)], a closure over [rowCount]. *)
Definition alignItemToRows (rowCount : Q) (item : PlanoItem)
    (stageHeight : JS.value) : PlanoItem :=
  if negb (JS.truthy stageHeight) || Qle_bool rowCount 0 then item
  else
    match stageHeight with
    | JS.Num sh =>
        let newY := alignedY rowCount sh item in
        if JS.ltb (JS.abs (newY - y item)) (1 # 100) then item
        else with_y item newY
    | JS.NaN | JS.Undefined => item
    end.

(** The effect that re-aligns every item when the stage height or the row
    count changes. *)
Definition realignItems (st : State) : State :=
  if negb (JS.truthy (JS.Num (height (stageSize st)))) then st
  else
    setItems st
      (map (fun it =>
              alignItemToRows (rowCount st) it
                              (JS.Num (height (stageSize st))))
           (items st)).

(** [rowHeightPx]: [null] is [None]. *)
Definition rowHeightPx (st : State) : option Q :=
  if JS.ltb 0 (rowCount st) && JS.truthy (JS.Num (height (stageSize st)))
  then Some (height (stageSize st) / rowCount st)
  else None.

(** [isHeightExceeded]:
    [rowHeightPx !== null && item.h > rowHeightPx + 0.01] *)
Definition isHeightExceeded (st : State) (item : PlanoItem) : bool :=
  match rowHeightPx st with
  | Some rh => JS.ltb (rh + (1 # 100)) (h item)
  | None => false
  end.

(** ** Pointer gestures *)

(** The predicate of the hit test: the pointer lies in the item's
    rectangle, edges included. *)
Definition hit (px py : Q) (it : PlanoItem) : bool :=
  Qle_bool (x it) px && Qle_bool px (x it + w it) &&
  Qle_bool (y it) py && Qle_bool py (y it + h it).

(** [[...items].reverse().find(...)] *)
Definition topItem (px py : Q) (l : list PlanoItem) : option PlanoItem :=
  find (hit px py) (rev l).

(** [onPointerDown]; [px], [py] are the pointer coordinates relative to the
    stage ([e.clientX - rect.left], [e.clientY - rect.top]). *)
Definition onPointerDown (st : State) (px py : Q) : State :=
  if measureMode st then setMeasure st (mkMeasure true px py 0 0)
  else
    match topItem px py (items st) with
    | Some top =>
        setDrag (setSelectedId st (Some (id top)))
                (Some (mkDrag (id top) (px - x top) (py - y top)
                              (withinHandle px py top)))
    | None => setSelectedId st None
    end.

(** The function mapped over the items by [onPointerMove]. *)
Definition moveItem (gridSize : Q) (d : DragState) (px py : Q)
    (it : PlanoItem) : PlanoItem :=
  if negb (String.eqb (id it) (drag_id d)) then it
  else if resizing d then
    let newW := JS.max 20 (px - x it) in
    let newH := JS.max 20 (py - y it) in
    with_wh it (snap newW gridSize) (snap newH gridSize)
  else
    let newX := px - offsetX d in
    let newY := py - offsetY d in
    with_xy it (snap newX gridSize) (snap newY gridSize).

Definition onPointerMove (st : State) (px py : Q) : State :=
  if measureMode st && active (measure st) then
    let m := measure st in
    setMeasure st (mkMeasure (active m) (mx m) (my m) (px - mx m) (py - my m))
  else
    match drag st with
    | None => st
    | Some d => setItems st (map (moveItem (gridSize st) d px py) (items st))
    end.

Definition onPointerUp (st : State) : State :=
  if measureMode st && active (measure st) then
    let m := measure st in
    setMeasure st (mkMeasure false (mx m) (my m) (snap (mw m) (gridSize st))
                             (snap (mh m) (gridSize st)))
  else
    let st' :=
      match drag st with
      | Some d =>
          if JS.truthy (JS.Num (height (stageSize st))) then
            setItems st
              (map (fun it =>
                      if String.eqb (id it) (drag_id d)
                      then alignItemToRows (rowCount st) it
                                           (JS.Num (height (stageSize st)))
                      else it)
                   (items st))
          else st
      | None => st
      end in
    setDrag st' None.

(** ** Selection and deletion *)

(** [selected = items.find((i) => i.id === selectedId) || null] *)
Definition selected (st : State) : option PlanoItem :=
  match selectedId st with
  | Some s => find (fun i => String.eqb (id i) s) (items st)
  | None => None
  end.

Definition removeSelected (st : State) : State :=
  match selected st with
  | None => st
  | Some sel =>
      setSelectedId
        (setItems st
           (filter (fun it => negb (String.eqb (id it) (id sel))) (items st)))
        None
  end.

(** ** The specification's formulas, written from its words *)

(** Depth-exceeded as the specification states it:
    [quantity * depth > containerDepth]. *)
Definition spec_depthExceeded (containerDepth q d : Q) : Prop :=
  containerDepth < q * d.

(** Height-exceeded as the specification states it:
    [item.height > stageHeight / rowCount + 0.01]. *)
Definition spec_heightExceeded (stageHeight rowCount itemH : Q) : Prop :=
  stageHeight / rowCount + (1 # 100) < itemH.

(** The initial items of the component and a state around them. *)
Definition boxA : PlanoItem :=
  mkItem "A" "Box A" 60 60 160 120 (JS.Num 30) (JS.Num 1) "#22d3ee".
Definition boxB : PlanoItem :=
  mkItem "B" "Box B" 280 60 120 160 (JS.Num 20) (JS.Num 1) "#ef4444".

Definition initialState : State :=
  mkState 20 40 false 3 (mkStage 0 0) [boxA; boxB] (Some "A"%string) None
          (mkMeasure false 0 0 0 0).

(** An item with the given quantity and depth, used in the scenarios. *)
Definition stacked (q d : Q) : PlanoItem :=
  mkItem "S" "Stack" 0 0 40 40 (JS.Num d) (JS.Num q) "#3b82f6".

(** The pointer lies in the item's rectangle, as the specification words
    it (inclusive edges). *)
Definition contains (px py : Q) (it : PlanoItem) : Prop :=
  x it <= px /\ px <= x it + w it /\ y it <= py /\ py <= y it + h it.

(** A quantity or depth that is absent or [NaN]. *)
Definition missing (v : JS.value) : Prop := v = JS.Undefined \/ v = JS.NaN.

(** The initial state once the stage has been measured at height [sh],
    with [rc] rows. *)
Definition measuredState (sh rc : Q) : State :=
  mkState 20 40 false rc (mkStage 900 sh) [boxA; boxB] (Some "A"%string) None
          (mkMeasure false 0 0 0 0).

(** An item of height [hh]. *)
Definition tall (hh : Q) : PlanoItem :=
  mkItem "T" "Tall" 0 0 40 hh (JS.Num 25) (JS.Num 1) "#8b5cf6".

(** The initial state with the grid slider moved to [g]. *)
Definition gridState (g : Q) : State :=
  mkState g 40 false 3 (mkStage 0 0) [boxA; boxB] (Some "A"%string) None
          (mkMeasure false 0 0 0 0).

(** What a move drag commits for one item: the snapped pointer position
    less the grab offset, for the item that carries the dragged id. *)
Definition movedItem (g : Q) (d : DragState) (px py : Q) (it : PlanoItem)
    : PlanoItem :=
  if String.eqb (id it) (drag_id d)
  then with_xy it (snap (px - offsetX d) g) (snap (py - offsetY d) g)
  else it.

(** An item taller than a 100px row that hangs over the top edge of the
    stage, as a drag towards the top leaves it. *)
Definition overhang : PlanoItem :=
  mkItem "O" "Overhang" 0 (-100) 40 150 (JS.Num 25) (JS.Num 1) "#f59e0b".

(** The [baseline] of [alignItemToRows] as a function of the item's bottom
    edge alone (the same expressions as in [alignedY]). *)
Definition baselineOf (rowCount stageHeight itemBottom : Q) : Q :=
  let rowHeight := stageHeight / rowCount in
  let rawRow := JS.ceil (itemBottom / rowHeight) - 1 in
  let rowIndex := JS.max 0 (JS.min (rowCount - 1) rawRow) in
  JS.min stageHeight (rowHeight * (rowIndex + 1)).

(** An item whose quantity did not parse. *)
Definition noQuantity : PlanoItem :=
  mkItem "N" "No quantity" 0 0 40 40 (JS.Num 500) JS.NaN "#10b981".

(** The initial state after a pointer-down at (70, 70), inside Box A and
    away from its handle. *)
Definition grabbedA : State := onPointerDown initialState 70 70.

(** Grid size 14, after a pointer-down at (215, 175), on the resize handle
    of Box A. *)
Definition resizingA : State := onPointerDown (gridState 14) 215 175.

(** Three items, the last one drawn over the left edge of the stage. *)
Definition threeItems : State := setItems initialState [boxA; boxB; tall 500].

(** ** Toolbar and inspector inputs *)

(** [v || d] for a numeric default [d]: the result is always a number. *)
Definition orNum (v : JS.value) (d : Q) : Q :=
  match JS.or v (JS.Num d) with
  | JS.Num q => q
  | JS.NaN | JS.Undefined => d
  end.

(** The sanitising expressions of the [onChange] handlers; [parsed] is what
    [parseFloat] or [parseInt] returned, a number or [NaN].

    - depth and quantity: [Math.max(0, parsed || 0)]
    - scale: [Math.max(2, parsed || DEFAULT_PX_PER_CM)]
    - container depth: [Math.max(1, parsed || 1)]
    - rows: [Math.min(12, Math.max(1, parsed || 1))] *)
Definition depthInput (parsed : JS.value) : Q := JS.max 0 (orNum parsed 0).
Definition qtyInput (parsed : JS.value) : Q := JS.max 0 (orNum parsed 0).
Definition pxPerCmInput (parsed : JS.value) : Q := JS.max 2 (orNum parsed 10).
Definition containerDepthInput (parsed : JS.value) : Q :=
  JS.max 1 (orNum parsed 1).
Definition rowCountInput (parsed : JS.value) : Q :=
  JS.min 12 (JS.max 1 (orNum parsed 1)).

Definition setContainerDepth (st : State) (c : Q) : State :=
  mkState (gridSize st) c (measureMode st) (rowCount st) (stageSize st)
          (items st) (selectedId st) (drag st) (measure st).

Definition setRowCount (st : State) (rc : Q) : State :=
  mkState (gridSize st) (containerDepth st) (measureMode st) rc (stageSize st)
          (items st) (selectedId st) (drag st) (measure st).

Definition setStageSize (st : State) (s : StageSize) : State :=
  mkState (gridSize st) (containerDepth st) (measureMode st) (rowCount st) s
          (items st) (selectedId st) (drag st) (measure st).

(** [it.id === selectedId] *)
Definition isSelectedId (st : State) (it : PlanoItem) : bool :=
  match selectedId st with
  | Some s => String.eqb (id it) s
  | None => false
  end.

Definition with_depth (it : PlanoItem) (d : JS.value) : PlanoItem :=
  mkItem (id it) (name it) (x it) (y it) (w it) (h it) d (qty it) (color it).

Definition with_qty (it : PlanoItem) (q : JS.value) : PlanoItem :=
  mkItem (id it) (name it) (x it) (y it) (w it) (h it) (depth it) q (color it).

Definition with_name (it : PlanoItem) (n : string) : PlanoItem :=
  mkItem (id it) n (x it) (y it) (w it) (h it) (depth it) (qty it) (color it).

(** [updateDepth], [updateQty], [updateName] *)
Definition updateDepth (st : State) (d : Q) : State :=
  setItems st
    (map (fun it => if isSelectedId st it then with_depth it (JS.Num d) else it)
         (items st)).

Definition updateQty (st : State) (q : Q) : State :=
  setItems st
    (map (fun it => if isSelectedId st it then with_qty it (JS.Num q) else it)
         (items st)).

Definition updateName (st : State) (n : string) : State :=
  setItems st
    (map (fun it => if isSelectedId st it then with_name it n else it)
         (items st)).

(** ** Stage measurement *)

(** The updater given to [setStageSize] by the resize observer: a change
    of less than half a pixel in both dimensions keeps the previous size. *)
Definition measuredSize (prev : StageSize) (newWidth newHeight : Q)
    : StageSize :=
  if JS.ltb (JS.abs (width prev - newWidth)) (1 # 2) &&
     JS.ltb (JS.abs (height prev - newHeight)) (1 # 2)
  then prev
  else mkStage newWidth newHeight.

(** ** Cursor hint *)

Inductive Cursor : Type :=
| Crosshair
| NwseResize
| Grab
| DefaultCursor.

(** [onPointerMoveStage]: the value assigned to [style.cursor]. *)
Definition onPointerMoveStage (st : State) (px py : Q) : Cursor :=
  if measureMode st then Crosshair
  else
    match topItem px py (items st) with
    | Some top => if withinHandle px py top then NwseResize else Grab
    | None => DefaultCursor
    end.

(** ** Adding an item *)

Definition colorPool : list string :=
  ["#22d3ee"; "#8b5cf6"; "#f59e0b"; "#10b981"; "#ef4444"; "#3b82f6"]%string.

(** The decimal numeral of a count, as a template literal prints it. *)
Definition numString (n : nat) : string :=
  NilEmpty.string_of_uint (Nat.to_uint n).

Definition ofNat (n : nat) : Q := inject_Z (Z.of_nat n).

(** [baseItem] of [addItem], for [num = items.length + 1]. *)
Definition baseItem (g : Q) (num : nat) : PlanoItem :=
  mkItem ("N" ++ numString num) ("Box " ++ numString num)
         (snap (40 + ofNat num * 24) g)
         (snap (200 + ofNat (num mod 3) * 24) g)
         (snap 120 g) (snap 80 g) (JS.Num 25) (JS.Num 1)
         (nth (num mod List.length colorPool) colorPool ""%string).

(** [addItem]; [rectHeight] is the height read from the stage element,
    absent when the element is not mounted
    ([stageRef.current?.getBoundingClientRect().height ?? stageSize.height]). *)
Definition addItem (st : State) (rectHeight : option Q) : State :=
  let num := (List.length (items st) + 1)%nat in
  let stageHeight :=
    match rectHeight with
    | Some r => r
    | None => height (stageSize st)
    end in
  let alignedItem :=
    alignItemToRows (rowCount st) (baseItem (gridSize st) num)
                    (JS.Num stageHeight) in
  setSelectedId (setItems st (items st ++ [alignedItem]))
                (Some ("N" ++ numString num)%string).

(** ** Measurement overlay *)

Record Rect : Type := mkRect {
  rectLeft : Q;
  rectTop : Q;
  rectWidth : Q;
  rectHeightPx : Q
}.

(** The overlay of the render function: drawn while a measurement is
    active, or when both of its sides are non-zero. *)
Definition measureOverlay (m : MeasureState) : option Rect :=
  if active m || (negb (Qeq_bool (mw m) 0) && negb (Qeq_bool (mh m) 0))
  then Some (mkRect (JS.min (mx m) (mx m + mw m))
                    (JS.min (my m) (my m + mh m))
                    (JS.abs (mw m)) (JS.abs (mh m)))
  else None.

(** ** Alert lists *)

(** [heightAlerts] and [depthAlerts] *)
Definition heightAlerts (st : State) : list PlanoItem :=
  match rowHeightPx st with
  | None => []
  | Some _ => filter (isHeightExceeded st) (items st)
  end.

Definition depthAlerts (st : State) : list PlanoItem :=
  filter (depthExceeded (containerDepth st)) (items st).

(** ** Sequences of pointer events *)

Inductive PointerEvent : Type :=
| PointerDown (px py : Q)
| PointerMove (px py : Q)
| PointerUp.

(** The stage's [onPointerDown], [onPointerMove] and [onPointerUp]
    props. *)
Definition handle (st : State) (e : PointerEvent) : State :=
  match e with
  | PointerDown px py => onPointerDown st px py
  | PointerMove px py => onPointerMove st px py
  | PointerUp => onPointerUp st
  end.

Definition handleAll (st : State) (es : list PointerEvent) : State :=
  fold_left handle es st.

(** An item is on the grid when both coordinates are multiples of the
    grid size. *)
Definition onGrid (g : Q) (it : PlanoItem) : Prop :=
  exists a b : Z, x it == inject_Z a * g /\ y it == inject_Z b * g.

(** What no pointer event changes in an item, and in the state. *)
Definition fixedFields (it : PlanoItem)
    : string * string * JS.value * JS.value * string :=
  (id it, name it, depth it, qty it, color it).

Definition settings (st : State) : Q * Q * bool * Q * StageSize :=
  (gridSize st, containerDepth st, measureMode st, rowCount st, stageSize st).

Definition isMove (e : PointerEvent) : Prop :=
  match e with
  | PointerMove _ _ => True
  | PointerDown _ _ | PointerUp => False
  end.

(** The id [addItem] gives to the next item, and the item it appends. *)
Definition nextId (st : State) : string :=
  ("N" ++ numString (List.length (items st) + 1))%string.

Definition addedItem (st : State) (rectHeight : option Q) : PlanoItem :=
  alignItemToRows (rowCount st)
    (baseItem (gridSize st) (List.length (items st) + 1))
    (JS.Num match rectHeight with
            | Some r => r
            | None => height (stageSize st)
            end).

(** Pressing [+ Add Box] once for every stage height in [rs]. *)
Definition addItems (st : State) (rs : list (option Q)) : State :=
  fold_left addItem rs st.

(** A measured stage in measure mode. *)
Definition measuringState : State :=
  mkState 20 40 true 3 (mkStage 900 700) [boxA; boxB] (Some "A"%string) None
          (mkMeasure false 0 0 0 0).

(** Ids are unique, and an id of the form [N<n>] has [n] no larger than
    the number of items: what [addItem] relies on when it numbers the next
    item by the length of the list. *)
Definition idsInOrder (st : State) : Prop :=
  NoDup (map id (items st)) /\
  forall n : nat,
    In ("N" ++ numString n)%string (map id (items st)) ->
    (n <= List.length (items st))%nat.

(** ** Binary64 rounding *)

(** The source computes in IEEE 754 binary64.  [binary64 q] is the
    double nearest to the rational [q], ties to even, for results in the
    normal range (no overflow to infinity, no subnormals): the rounding
    that every arithmetic operation of the source applies to its exact
    result. *)
Definition pow2 (e : Z) : Q :=
  if (0 <=? e)%Z then inject_Z (2 ^ e) else / inject_Z (2 ^ (- e)).

Definition roundHalfEven (q : Q) : Z :=
  let f := Qfloor q in
  match Qcompare (q - inject_Z f) (1 # 2) with
  | Lt => f
  | Gt => (f + 1)%Z
  | Eq => if Z.even f then f else (f + 1)%Z
  end.

Definition binary64 (q : Q) : Q :=
  let r := Qred q in
  match Qnum r with
  | Z0 => 0
  | _ =>
      let a := Qabs r in
      let e0 := (Z.log2 (Qnum a) - Z.log2 (Zpos (Qden a)))%Z in
      let e1 := if Qle_bool (pow2 e0) a then e0 else (e0 - 1)%Z in
      let e := (e1 - 52)%Z in
      let m := roundHalfEven (a / pow2 e) in
      Qred ((if (Qnum r <? 0)%Z then - (1) else 1) * inject_Z m * pow2 e)
  end.


(** ** Row alignment with rounding *)

(** [alignItemToRows] with the result of every division, product, sum and
    difference rounded by [rnd], and with the literal [0.01] rounded as
    well; [Math.ceil], [Math.max] and [Math.min] are exact.  With
    [rnd := binary64] this is the arithmetic of the source, with the
    identity it is [alignedY] and [alignItemToRows]. *)
Definition alignedYR (rnd : Q -> Q) (rowCount stageHeight : Q)
    (item : PlanoItem) : Q :=
  let rowHeight := rnd (stageHeight / rowCount) in
  let itemBottom := rnd (y item + h item) in
  let rawRow := rnd (JS.ceil (rnd (itemBottom / rowHeight)) - 1) in
  let rowIndex := JS.max 0 (JS.min (rnd (rowCount - 1)) rawRow) in
  let baseline := JS.min stageHeight (rnd (rowHeight * rnd (rowIndex + 1))) in
  JS.max 0 (rnd (baseline - h item)).

Definition alignItemToRowsR (rnd : Q -> Q) (rowCount : Q) (item : PlanoItem)
    (stageHeight : JS.value) : PlanoItem :=
  if negb (JS.truthy stageHeight) || Qle_bool rowCount 0 then item
  else
    match stageHeight with
    | JS.Num sh =>
        let newY := alignedYR rnd rowCount sh item in
        if JS.ltb (JS.abs (rnd (newY - y item))) (rnd (1 # 100)) then item
        else with_y item newY
    | JS.NaN | JS.Undefined => item
    end.

(** The exact results of the arithmetic steps of one alignment, in the
    order of the source and but for the quotient: row height, item bottom,
    the raw row, the last row, the row index plus one, the product, the
    difference to the item height and the distance to the current [y]. *)
Definition alignSteps (rowCount stageHeight : Q) (item : PlanoItem) : list Q :=
  let rowHeight := stageHeight / rowCount in
  let itemBottom := y item + h item in
  let quotient := itemBottom / rowHeight in
  let rawRow := JS.ceil quotient - 1 in
  let lastRow := rowCount - 1 in
  let rowIndex := JS.max 0 (JS.min lastRow rawRow) in
  let next := rowIndex + 1 in
  let product := rowHeight * next in
  let baseline := JS.min stageHeight product in
  let difference := baseline - h item in
  let newY := JS.max 0 difference in
  [rowHeight; itemBottom; rawRow; lastRow; next; product; difference;
   newY - y item].

(** No value of the list is changed by the rounding. *)
Definition exactly (rnd : Q -> Q) (l : list Q) : Prop :=
  Forall (fun v => rnd v == v) l.

(** An alignment that rounding does not disturb: no step but the quotient
    is rounded, and the rounded quotient of item bottom and row height
    still rounds up to the row that the exact quotient rounds up to. *)
Definition unrounded (rnd : Q -> Q) (rowCount stageHeight : Q)
    (item : PlanoItem) : Prop :=
  exactly rnd (alignSteps rowCount stageHeight item) /\
  JS.ceil (rnd ((y item + h item) / (stageHeight / rowCount)))
  = JS.ceil ((y item + h item) / (stageHeight / rowCount)).

(** The floor at 0 stops the item short of its baseline: the item is
    taller than the baseline of the row its bottom edge lies in, it is at
    least [eps] away from the top edge, and aligned from the top edge it
    would be moved down by at least [eps]. *)
Definition stoppedShort (eps rowCount stageHeight : Q) (item : PlanoItem)
    : Prop :=
  baselineOf rowCount stageHeight (y item + h item) < h item /\
  eps <= Qabs (y item) /\
  eps <= alignedY rowCount stageHeight (with_y item 0).

(** ** Two items with one id *)

(** The state reached on a 900 x 600 stage with three rows by: [+ Add Box]
    (item N3), dragging N3 eighty pixels to the right, clicking Box A,
    [Delete Selected], [+ Add Box] again (a second item N3). *)
Definition twinsState : State :=
  addItem
    (removeSelected
       (handleAll
          (addItem (realignItems (measuredState 600 3)) (Some 600))
          [PointerDown 130 330; PointerMove 210 330; PointerUp;
           PointerDown 70 90; PointerUp]))
    (Some 600).

Definition olderTwin : PlanoItem :=
  mkItem "N3" "Box 3" 200 320 120 80 (JS.Num 25) (JS.Num 1) "#10b981".

Definition newerTwin : PlanoItem :=
  mkItem "N3" "Box 3" 120 320 120 80 (JS.Num 25) (JS.Num 1) "#10b981".

(** Two items that agree in every field, the coordinates as numbers. *)
Definition sameBox (a b : PlanoItem) : Prop :=
  fixedFields a = fixedFields b /\
  x a == x b /\ y a == y b /\ w a == w b /\ h a == h b.

(** * Properties *)

(** ** Comparisons and [Math] functions *)

Lemma ltb_lt (p q : Q) : JS.ltb p q = true <-> p < q.
Proof.
  unfold JS.ltb. rewrite negb_true_iff.
  split; intros Hpq.
  - apply Qnot_le_lt. intros Hle. apply Qle_bool_iff in Hle. congruence.
  - destruct (Qle_bool q p) eqn:E; [|reflexivity].
    apply Qle_bool_iff in E. exfalso. apply (Qlt_not_le _ _ Hpq E).
Qed.

Lemma ltb_ge (p q : Q) : JS.ltb p q = false <-> q <= p.
Proof.
  unfold JS.ltb. rewrite negb_false_iff. apply Qle_bool_iff.
Qed.

Lemma leb_gt (p q : Q) : Qle_bool p q = false <-> q < p.
Proof.
  rewrite <- ltb_lt. unfold JS.ltb. now rewrite negb_true_iff.
Qed.

Lemma max_cases (p q : Q) :
  (p <= q /\ JS.max p q = q) \/ (q < p /\ JS.max p q = p).
Proof.
  unfold JS.max. destruct (Qle_bool p q) eqn:E.
  - left. split; [now apply Qle_bool_iff | reflexivity].
  - right. split; [now apply leb_gt | reflexivity].
Qed.

Lemma min_cases (p q : Q) :
  (p <= q /\ JS.min p q = p) \/ (q < p /\ JS.min p q = q).
Proof.
  unfold JS.min. destruct (Qle_bool p q) eqn:E.
  - left. split; [now apply Qle_bool_iff | reflexivity].
  - right. split; [now apply leb_gt | reflexivity].
Qed.

(** [Math.round] leaves an integer where it is. *)
Lemma round_integer (n : Z) (q : Q) : q == inject_Z n -> JS.round q = inject_Z n.
Proof.
  intros Hq. unfold JS.round. f_equal.
  assert (E : q + (1 # 2) == inject_Z n + (1 # 2)) by (rewrite Hq; reflexivity).
  rewrite (Qfloor_comp _ _ E).
  pose proof (Qfloor_le (inject_Z n + (1 # 2))) as Hlo.
  pose proof (Qlt_floor (inject_Z n + (1 # 2))) as Hhi.
  set (m := Qfloor (inject_Z n + (1 # 2))) in *.
  assert (Hm1 : inject_Z m < inject_Z (n + 1)).
  { rewrite inject_Z_plus. change (inject_Z 1) with 1. lra. }
  assert (Hm2 : inject_Z n < inject_Z (m + 1)) by lra.
  rewrite <- Zlt_Qlt in Hm1, Hm2. lia.
Qed.

(** [Math.round] is within half a unit of its argument. *)
Lemma round_bounds (q : Q) : q - (1 # 2) < JS.round q /\ JS.round q <= q + (1 # 2).
Proof.
  unfold JS.round.
  pose proof (Qfloor_le (q + (1 # 2))) as Hlo.
  pose proof (Qlt_floor (q + (1 # 2))) as Hhi.
  rewrite inject_Z_plus in Hhi. change (inject_Z 1) with 1 in Hhi. split; lra.
Qed.

(** ** [snap] *)

Lemma snap_multiple (n : Z) (g : Q) :
  ~ g == 0 -> snap (inject_Z n * g) g = inject_Z n * g.
Proof.
  intros Hg. unfold snap. f_equal. apply round_integer. now field.
Qed.

Lemma snap_idempotent_nonzero (v g : Q) :
  ~ g == 0 -> snap (snap v g) g = snap v g.
Proof.
  intros Hg. unfold snap at 2 3. unfold JS.round.
  now apply snap_multiple.
Qed.

(** C5. [snap] is idempotent: for every value [v] and every grid size [g]
    in the configurable range 10..40, snapping a snapped value changes
    nothing, where [snap v g] is [Math.round (v / g) * g]. *)
Theorem snap_idempotent (v g : Q) :
  10 <= g -> g <= 40 ->
  snap v g = JS.round (v / g) * g /\ snap (snap v g) g == snap v g.
Proof.
  intros Hlo Hhi. split; [reflexivity|].
  rewrite snap_idempotent_nonzero; [reflexivity|]. lra.
Qed.

Lemma snap_idempotent_witness :
  snap 77 20 = JS.round (77 / 20) * 20 /\ snap (snap 77 20) 20 == snap 77 20.
Proof. apply (snap_idempotent 77 20); lra. Defined.

(** ** Depth validation *)

(** [x || 0] on a number is that number. *)
Lemma or_zero_num (q : Q) : exists q', JS.or (JS.Num q) (JS.Num 0) = JS.Num q' /\ q' == q.
Proof.
  unfold JS.or, JS.truthy. destruct (Qeq_bool q 0) eqn:E; simpl.
  - exists 0. split; [reflexivity|]. apply Qeq_bool_iff in E. now symmetry.
  - exists q. split; reflexivity.
Qed.

(** [x || 0] on [undefined] or [NaN] is [0]. *)
Lemma or_zero_missing (v : JS.value) : missing v -> JS.or v (JS.Num 0) = JS.Num 0.
Proof. intros [-> | ->]; reflexivity. Qed.

(** Whatever the field holds, [x || 0] is a number. *)
Lemma or_zero_is_num (v : JS.value) : exists q, JS.or v (JS.Num 0) = JS.Num q.
Proof.
  destruct v as [| |q]; try (exists 0; reflexivity).
  destruct (or_zero_num q) as [q' [E _]]. now exists q'.
Qed.

(** C1. For every item with numeric quantity and depth and every
    container depth, [depthExceeded] is true exactly when quantity times
    depth is strictly greater than the container depth.  With container
    depth 40, quantity 2 of depth 20 (total 40) is not flagged and
    quantity 2 of depth 21 (total 42) is. *)
Theorem depthExceeded_exact :
  (forall (c : Q) (it : PlanoItem) (q d : Q),
      qty it = JS.Num q -> depth it = JS.Num d ->
      (depthExceeded c it = true <-> spec_depthExceeded c q d)) /\
  depthExceeded 40 (stacked 2 20) = false /\
  depthExceeded 40 (stacked 2 21) = true.
Proof.
  split; [|split; reflexivity].
  intros c it q d Hq Hd. unfold depthExceeded, spec_depthExceeded.
  rewrite Hq, Hd.
  destruct (or_zero_num q) as [q' [-> Eq]].
  destruct (or_zero_num d) as [d' [-> Ed]].
  simpl. rewrite ltb_lt, Eq, Ed. reflexivity.
Qed.

Lemma depthExceeded_exact_witness :
  depthExceeded 40 boxA = true <-> spec_depthExceeded 40 1 30.
Proof.
  apply (proj1 depthExceeded_exact 40 boxA 1 30); reflexivity.
Defined.

(** C10. [depthExceeded] replaces a missing or [NaN] quantity or depth by
    0 before it multiplies, so an item whose quantity or depth is absent
    or [NaN] is never flagged when the container depth is not negative. *)
Theorem depthExceeded_missing (c : Q) (it : PlanoItem) :
  0 <= c ->
  missing (qty it) \/ missing (depth it) ->
  (missing (qty it) -> JS.or (qty it) (JS.Num 0) = JS.Num 0) /\
  (missing (depth it) -> JS.or (depth it) (JS.Num 0) = JS.Num 0) /\
  depthExceeded c it = false.
Proof.
  intros Hc Hm.
  split; [apply or_zero_missing|]. split; [apply or_zero_missing|].
  unfold depthExceeded.
  destruct Hm as [Hm | Hm]; rewrite (or_zero_missing _ Hm).
  - destruct (or_zero_is_num (depth it)) as [d ->]. simpl.
    apply ltb_ge. lra.
  - destruct (or_zero_is_num (qty it)) as [q ->]. simpl.
    apply ltb_ge. lra.
Qed.

Lemma depthExceeded_missing_witness :
  (missing (qty noQuantity) -> JS.or (qty noQuantity) (JS.Num 0) = JS.Num 0) /\
  (missing (depth noQuantity) ->
   JS.or (depth noQuantity) (JS.Num 0) = JS.Num 0) /\
  depthExceeded 40 noQuantity = false.
Proof.
  apply (depthExceeded_missing 40 noQuantity).
  - lra.
  - left. right. reflexivity.
Defined.

(** ** Height validation *)

Lemma truthy_num (q : Q) : JS.truthy (JS.Num q) = true <-> ~ q == 0.
Proof.
  simpl. rewrite negb_true_iff. split.
  - intros E Hq. apply Qeq_bool_iff in Hq. congruence.
  - intros Hq. destruct (Qeq_bool q 0) eqn:E; [|reflexivity].
    apply Qeq_bool_iff in E. contradiction.
Qed.

Lemma truthy_num_false (q : Q) : JS.truthy (JS.Num q) = false <-> q == 0.
Proof.
  simpl. rewrite negb_false_iff. apply Qeq_bool_iff.
Qed.

(** A state with the given stage height and row count. *)
Lemma rowHeightPx_some (st : State) :
  0 < rowCount st -> ~ height (stageSize st) == 0 ->
  rowHeightPx st = Some (height (stageSize st) / rowCount st).
Proof.
  intros Hrc Hh. unfold rowHeightPx.
  apply ltb_lt in Hrc. apply truthy_num in Hh. now rewrite Hrc, Hh.
Qed.

Lemma rowHeightPx_none (st : State) :
  height (stageSize st) == 0 \/ rowCount st <= 0 -> rowHeightPx st = None.
Proof.
  intros [Hh | Hrc]; unfold rowHeightPx.
  - apply truthy_num_false in Hh. rewrite Hh. now rewrite andb_false_r.
  - apply ltb_ge in Hrc. now rewrite Hrc.
Qed.

(** C4. Height-exceeded holds for an item exactly when its height is
    greater than stage height / row count + 0.01, and it is false whenever
    the row height cannot be computed (stage height 0, or row count not
    positive).  With stage height 700 and 3 rows an item of height 260 is
    flagged and one of height 200 is not. *)
Theorem isHeightExceeded_exact :
  (forall (st : State) (item : PlanoItem),
      0 < rowCount st -> ~ height (stageSize st) == 0 ->
      (isHeightExceeded st item = true <->
       spec_heightExceeded (height (stageSize st)) (rowCount st) (h item))) /\
  (forall (st : State) (item : PlanoItem),
      height (stageSize st) == 0 \/ rowCount st <= 0 ->
      isHeightExceeded st item = false) /\
  isHeightExceeded (measuredState 700 3) (tall 260) = true /\
  isHeightExceeded (measuredState 700 3) (tall 200) = false.
Proof.
  split; [|split; [|split; reflexivity]].
  - intros st item Hrc Hh. unfold isHeightExceeded, spec_heightExceeded.
    rewrite (rowHeightPx_some st Hrc Hh). apply ltb_lt.
  - intros st item Hno. unfold isHeightExceeded.
    now rewrite (rowHeightPx_none st Hno).
Qed.

Lemma isHeightExceeded_exact_witness :
  (isHeightExceeded (measuredState 700 3) boxB = true <->
   spec_heightExceeded 700 3 160) /\
  isHeightExceeded initialState boxB = false.
Proof.
  split.
  - apply (proj1 isHeightExceeded_exact (measuredState 700 3) boxB).
    + reflexivity.
    + discriminate.
  - apply (proj1 (proj2 isHeightExceeded_exact) initialState boxB).
    left. reflexivity.
Defined.

(** ** Pointer move *)

Lemma onPointerMove_items (st : State) (px py : Q) (d : DragState) :
  measureMode st && active (measure st) = false ->
  drag st = Some d ->
  onPointerMove st px py =
  setItems st (map (moveItem (gridSize st) d px py) (items st)).
Proof.
  intros Hm Hd. unfold onPointerMove. now rewrite Hm, Hd.
Qed.

Lemma moveItem_move (g : Q) (d : DragState) (px py : Q) (it : PlanoItem) :
  resizing d = false -> moveItem g d px py it = movedItem g d px py it.
Proof.
  intros Hr. unfold moveItem, movedItem. rewrite Hr.
  now destruct (String.eqb (id it) (drag_id d)).
Qed.

(** A move drag, by id: every pointer-move commits, for each item that
    carries the dragged id, the position [snap (pointer - grab offset)] in
    each axis, and leaves every item with another id (and every other
    field) as it was.  With grid size 20, a raw x of 77 is committed as
    80. *)
Theorem onPointerMove_drag_snaps :
  (forall (st : State) (px py : Q) (d : DragState),
      measureMode st && active (measure st) = false ->
      drag st = Some d -> resizing d = false ->
      let st' := onPointerMove st px py in
      List.length (items st') = List.length (items st) /\
      (forall (i : nat) (it : PlanoItem),
          nth_error (items st) i = Some it ->
          nth_error (items st') i = Some (movedItem (gridSize st) d px py it) /\
          (id it = drag_id d ->
           x (movedItem (gridSize st) d px py it)
             = snap (px - offsetX d) (gridSize st) /\
           y (movedItem (gridSize st) d px py it)
             = snap (py - offsetY d) (gridSize st)) /\
          (id it <> drag_id d -> movedItem (gridSize st) d px py it = it))) /\
  (gridSize grabbedA == 20 /\
   drag grabbedA = Some (mkDrag "A" 10 10 false) /\
   87 - 10 == 77 /\
   items (onPointerMove grabbedA 87 90) = [with_xy boxA 80 80; boxB]).
Proof.
  split.
  - intros st px py d Hm Hd Hr st'. subst st'.
    rewrite (onPointerMove_items st px py d Hm Hd). simpl.
    split; [apply length_map|].
    intros i it Hi. split; [|split].
    + rewrite nth_error_map, Hi. simpl. now rewrite (moveItem_move _ _ _ _ _ Hr).
    + intros E. unfold movedItem.
      apply String.eqb_eq in E. rewrite E. split; reflexivity.
    + intros E. unfold movedItem.
      apply String.eqb_neq in E. now rewrite E.
  - split; [reflexivity|]. split; [reflexivity|]. split; reflexivity.
Qed.

Lemma onPointerMove_drag_snaps_witness :
  List.length (items (onPointerMove grabbedA 87 90))
  = List.length (items grabbedA).
Proof.
  apply (proj1 onPointerMove_drag_snaps grabbedA 87 90
               (mkDrag "A" 10 10 false));
    reflexivity.
Defined.

(** ** Hit testing *)

Section Find.
Context {A : Type} (f : A -> bool).

Lemma find_skip (a b : list A) :
  Forall (fun j => f j = false) a -> find f (a ++ b) = find f b.
Proof.
  induction 1 as [|j a Hj _ IH]; simpl; [reflexivity|].
  now rewrite Hj.
Qed.

(** [find] returns the first element that satisfies the predicate. *)
Lemma find_first (l : list A) (v : A) :
  find f l = Some v ->
  exists a b, l = a ++ v :: b /\ f v = true /\ Forall (fun j => f j = false) a.
Proof.
  induction l as [|j l IH]; simpl; [discriminate|].
  destruct (f j) eqn:E.
  - intros [= <-]. exists [], l. repeat split; auto.
  - intros Hf. destruct (IH Hf) as (a & b & -> & Hv & Ha).
    exists (j :: a), b. repeat split; auto.
Qed.

Lemma find_none_all (l : list A) :
  Forall (fun j => f j = false) l -> find f l = None.
Proof.
  induction 1 as [|j l Hj _ IH]; simpl; [reflexivity|]. now rewrite Hj.
Qed.

Lemma filter_all (l : list A) :
  Forall (fun j => f j = true) l -> filter f l = l.
Proof.
  induction 1 as [|j l Hj _ IH]; simpl; [reflexivity|].
  now rewrite Hj, IH.
Qed.
End Find.

Lemma hit_contains (px py : Q) (it : PlanoItem) :
  hit px py it = true <-> contains px py it.
Proof.
  unfold hit, contains. rewrite !andb_true_iff, !Qle_bool_iff. tauto.
Qed.

Lemma not_hit (px py : Q) (l : list PlanoItem) :
  Forall (fun j => ~ contains px py j) l ->
  Forall (fun j => hit px py j = false) l.
Proof.
  apply Forall_impl. intros j Hj.
  destruct (hit px py j) eqn:E; [|reflexivity].
  apply hit_contains in E. contradiction.
Qed.

(** The top item is the last item of the list under the pointer. *)
Lemma topItem_last (px py : Q) (l1 l2 : list PlanoItem) (it : PlanoItem) :
  contains px py it -> Forall (fun j => ~ contains px py j) l2 ->
  topItem px py (l1 ++ it :: l2) = Some it.
Proof.
  intros Hit Hl2. unfold topItem.
  rewrite rev_app_distr. simpl. rewrite <- app_assoc. simpl.
  rewrite find_skip.
  - simpl. apply hit_contains in Hit. now rewrite Hit.
  - apply Forall_rev. now apply not_hit.
Qed.

Lemma topItem_none (px py : Q) (l : list PlanoItem) :
  Forall (fun j => ~ contains px py j) l -> topItem px py l = None.
Proof.
  intros Hl. unfold topItem. apply find_none_all, Forall_rev. now apply not_hit.
Qed.

Lemma topItem_exists (px py : Q) (l : list PlanoItem) :
  (exists it, In it l /\ contains px py it) ->
  exists l1 it l2,
    l = l1 ++ it :: l2 /\ contains px py it /\
    Forall (fun j => ~ contains px py j) l2.
Proof.
  intros (it & Hin & Hit).
  destruct (topItem px py l) as [top|] eqn:E.
  - unfold topItem in E. apply find_first in E.
    destruct E as (a & b & Hl & Htop & Ha).
    exists (rev b), top, (rev a). split; [|split].
    + rewrite <- (rev_involutive l), Hl, rev_app_distr. simpl.
      now rewrite <- app_assoc.
    + now apply hit_contains.
    + apply Forall_rev. revert Ha. apply Forall_impl.
      intros j Hj Hc. apply hit_contains in Hc. congruence.
  - exfalso. unfold topItem in E.
    pose proof (find_none _ _ E it) as Hno.
    apply hit_contains in Hit. rewrite Hno in Hit; [discriminate|].
    now apply in_rev in Hin.
Qed.

(** Pointer-down hit testing, by id: among the items whose rectangle
    contains the pointer (edges included), the id of the one that comes
    last in the item list becomes [selectedId] and the dragged id; when no
    item contains the pointer the selection is cleared. *)
Theorem onPointerDown_topmost (st : State) (px py : Q) :
  measureMode st = false ->
  let st' := onPointerDown st px py in
  (forall l1 it l2,
      items st = l1 ++ it :: l2 ->
      contains px py it ->
      Forall (fun j => ~ contains px py j) l2 ->
      selectedId st' = Some (id it) /\
      drag st' = Some (mkDrag (id it) (px - x it) (py - y it)
                              (withinHandle px py it))) /\
  ((exists it, In it (items st) /\ contains px py it) ->
   exists l1 it l2,
     items st = l1 ++ it :: l2 /\ contains px py it /\
     Forall (fun j => ~ contains px py j) l2) /\
  (Forall (fun j => ~ contains px py j) (items st) ->
   selectedId st' = None /\ drag st' = drag st) /\
  items st' = items st.
Proof.
  intros Hm st'. subst st'. unfold onPointerDown. rewrite Hm.
  split; [|split; [|split]].
  - intros l1 it l2 Hl Hit Hl2.
    rewrite Hl, (topItem_last px py l1 l2 it Hit Hl2). split; reflexivity.
  - apply topItem_exists.
  - intros Hno. rewrite (topItem_none px py _ Hno). split; reflexivity.
  - destruct (topItem px py (items st)); reflexivity.
Qed.

Lemma onPointerDown_topmost_witness :
  selectedId (onPointerDown threeItems 30 100) = Some "T"%string /\
  selectedId (onPointerDown threeItems 100 100) = Some "A"%string.
Proof.
  split.
  - apply (proj1 (onPointerDown_topmost threeItems 30 100 eq_refl)
                 [boxA; boxB] (tall 500) []).
    + reflexivity.
    + unfold contains; simpl; lra.
    + constructor.
  - apply (proj1 (onPointerDown_topmost threeItems 100 100 eq_refl)
                 [] boxA [boxB; tall 500]).
    + reflexivity.
    + unfold contains; simpl; lra.
    + repeat constructor; unfold contains; simpl; lra.
Defined.

(** ** Deletion *)

Lemma selected_first (st : State) (sel : PlanoItem) :
  selected st = Some sel ->
  selectedId st = Some (id sel) /\
  exists l1 l2,
    items st = l1 ++ sel :: l2 /\ Forall (fun j => id j <> id sel) l1.
Proof.
  unfold selected. destruct (selectedId st) as [s|]; [|discriminate].
  intros Hf. apply find_first in Hf. destruct Hf as (a & b & Hl & Hs & Ha).
  apply String.eqb_eq in Hs. subst s. split; [reflexivity|].
  exists a, b. split; [exact Hl|].
  revert Ha. apply Forall_impl. intros j Hj. now apply String.eqb_neq.
Qed.

(** With unique ids, filtering out an id removes one element. *)
Lemma filter_out_unique (l1 l2 : list PlanoItem) (sel : PlanoItem) :
  NoDup (map id (l1 ++ sel :: l2)) ->
  filter (fun it => negb (String.eqb (id it) (id sel))) (l1 ++ sel :: l2)
  = l1 ++ l2.
Proof.
  intros Hnd. rewrite filter_app. simpl. rewrite String.eqb_refl. simpl.
  rewrite map_app in Hnd. simpl in Hnd.
  pose proof (NoDup_remove_2 _ _ _ Hnd) as Hnot.
  rewrite !filter_all; [reflexivity| |].
  - apply Forall_forall. intros j Hj. apply negb_true_iff, String.eqb_neq.
    intros E. apply Hnot, in_or_app. right. rewrite <- E. now apply in_map.
  - apply Forall_forall. intros j Hj. apply negb_true_iff, String.eqb_neq.
    intros E. apply Hnot, in_or_app. left. rewrite <- E. now apply in_map.
Qed.

(** Deletion, by id: [removeSelected] removes every item that carries
    the selected id (one element when ids are unique) and sets the
    selection to null, so that no selection refers to a removed id
    afterwards; when nothing is selected the operation changes neither the
    list nor the selection. *)
Theorem removeSelected_clears (st : State) :
  (forall sel : PlanoItem,
      selected st = Some sel ->
      let st' := removeSelected st in
      selectedId st = Some (id sel) /\
      selectedId st' = None /\ selected st' = None /\
      (forall it, In it (items st') <-> In it (items st) /\ id it <> id sel) /\
      (NoDup (map id (items st)) ->
       exists l1 l2, items st = l1 ++ sel :: l2 /\ items st' = l1 ++ l2)) /\
  (selectedId st = None -> removeSelected st = st).
Proof.
  split.
  - intros sel Hsel st'. subst st'. unfold removeSelected. rewrite Hsel. simpl.
    destruct (selected_first st sel Hsel) as (Hid & l1 & l2 & Hl & _).
    split; [exact Hid|]. split; [reflexivity|]. split; [reflexivity|]. split.
    + intros it. rewrite filter_In, negb_true_iff, String.eqb_neq. tauto.
    + intros Hnd. exists l1, l2. split; [exact Hl|].
      rewrite Hl in *. now apply filter_out_unique.
  - intros Hnone. unfold removeSelected, selected. now rewrite Hnone.
Qed.

Lemma removeSelected_clears_witness :
  selectedId (removeSelected initialState) = None /\
  items (removeSelected initialState) = [boxB] /\
  removeSelected (setSelectedId initialState None)
  = setSelectedId initialState None.
Proof.
  pose proof (proj1 (removeSelected_clears initialState) boxA eq_refl) as H.
  simpl in H. destruct H as (_ & Hs & _ & _ & Hl).
  split; [exact Hs|]. split; [reflexivity|].
  apply (proj2 (removeSelected_clears (setSelectedId initialState None))).
  reflexivity.
Defined.

(** ** Row alignment: what it leaves alone *)

Lemma alignItemToRows_cases (rc : Q) (item : PlanoItem) (sh : JS.value) :
  alignItemToRows rc item sh = item \/
  exists H, sh = JS.Num H /\
            alignItemToRows rc item sh = with_y item (alignedY rc H item).
Proof.
  unfold alignItemToRows.
  destruct (negb (JS.truthy sh) || Qle_bool rc 0); [now left|].
  destruct sh as [| |H]; try now left.
  destruct (JS.ltb _ _); [now left|].
  right. exists H. split; reflexivity.
Qed.

(** C9. [alignItemToRows] changes at most the [y] field: the result has
    the id, name, x, w, h, depth, qty and color of its argument.  The item
    is returned as it is when the stage height is 0 or undefined, when the
    row count is not positive, and when the recomputed y differs from the
    current y by less than 0.01. *)
Theorem alignItemToRows_frame (rc : Q) (item : PlanoItem) (sh : JS.value) :
  let r := alignItemToRows rc item sh in
  (id r = id item /\ name r = name item /\ x r = x item /\ w r = w item /\
   h r = h item /\ depth r = depth item /\ qty r = qty item /\
   color r = color item) /\
  (sh = JS.Undefined \/ sh = JS.NaN \/ (exists H, sh = JS.Num H /\ H == 0) \/
   rc <= 0 -> r = item) /\
  (forall H, sh = JS.Num H ->
             Qabs (alignedY rc H item - y item) < 1 # 100 -> r = item).
Proof.
  intros r. subst r. split; [|split].
  - destruct (alignItemToRows_cases rc item sh) as [-> | (H & _ & ->)];
      repeat split; reflexivity.
  - unfold alignItemToRows.
    intros [-> | [-> | [(H & -> & HH) | Hrc]]]; try reflexivity.
    + apply truthy_num_false in HH. now rewrite HH.
    + apply Qle_bool_iff in Hrc. now rewrite Hrc, orb_true_r.
  - intros H -> Hclose. unfold alignItemToRows.
    destruct (negb (JS.truthy (JS.Num H)) || Qle_bool rc 0); [reflexivity|].
    apply ltb_lt in Hclose. unfold JS.abs. now rewrite Hclose.
Qed.

Lemma alignItemToRows_frame_witness :
  alignItemToRows 3 boxA (JS.Num 0) = boxA /\
  alignItemToRows 3 (tall 100) (JS.Num 300) = tall 100.
Proof.
  split.
  - apply (proj1 (proj2 (alignItemToRows_frame 3 boxA (JS.Num 0)))).
    right. right. left. exists 0. split; reflexivity.
  - apply (proj2 (proj2 (alignItemToRows_frame 3 (tall 100) (JS.Num 300)))
             300 eq_refl).
    reflexivity.
Defined.

(** ** Row alignment: the baseline *)

Lemma alignedY_baseline (rc H : Q) (item : PlanoItem) :
  alignedY rc H item
  = JS.max 0 (baselineOf rc H (y item + h item) - h item).
Proof. reflexivity. Qed.

Ltac clamp_cases :=
  match goal with
  | |- context [JS.min ?a ?b] => destruct (min_cases a b) as [[? ->]|[? ->]]
  | |- context [JS.max ?a ?b] => destruct (max_cases a b) as [[? ->]|[? ->]]
  end.

Section Rows.
Variables rc H : Q.
Hypothesis H_pos : 0 < H.
Hypothesis rc_ge_1 : 1 <= rc.

Let rh : Q := H / rc.

Lemma rowHeight_rows : rh * rc == H.
Proof. unfold rh. field. lra. Qed.

Lemma rowHeight_pos : 0 < rh.
Proof. unfold rh. apply Qlt_shift_div_l; lra. Qed.

Lemma rowHeight_le : rh <= H.
Proof.
  pose proof rowHeight_rows. pose proof rowHeight_pos. nra.
Qed.

Lemma ceiling_bounds (q : Q) :
  q <= inject_Z (Qceiling q) /\ inject_Z (Qceiling q) < q + 1.
Proof.
  split; [apply Qle_ceiling|].
  pose proof (Qceiling_lt q) as Hlt.
  unfold Z.sub in Hlt. rewrite inject_Z_plus in Hlt.
  change (inject_Z (- (1))%Z) with (- (1))%Q in Hlt. lra.
Qed.

(** Which band the bottom edge [b] falls in decides the baseline. *)
Lemma baseline_cases (b : Q) :
  let c := Qceiling (b / rh) in
  ((c <= 1)%Z /\ baselineOf rc H b == rh) \/
  ((1 <= c)%Z /\ inject_Z c <= rc /\ baselineOf rc H b == rh * inject_Z c) \/
  (rc < inject_Z c /\ baselineOf rc H b == H).
Proof.
  intros c. unfold baselineOf, JS.ceil. fold rh. fold c.
  pose proof rowHeight_rows as Hrows.
  pose proof rowHeight_pos as Hrh.
  pose proof rowHeight_le as Hle.
  set (k := JS.max 0 (JS.min (rc - 1) (inject_Z c - 1))).
  destruct (Z_le_gt_dec c 1) as [Hc | Hc].
  - left. split; [exact Hc|].
    assert (Hc' : inject_Z c <= 1) by (now rewrite Zle_Qle in Hc).
    assert (Hk : k == 0).
    { unfold k. repeat clamp_cases; lra. }
    assert (Hp : rh * (k + 1) == rh) by (rewrite Hk; ring).
    destruct (min_cases H (rh * (k + 1))) as [[? ->]|[? ->]]; lra.
  - right.
    assert (Hc' : 1 <= inject_Z c).
    { change 1 with (inject_Z 1). rewrite <- Zle_Qle. lia. }
    destruct (Qlt_le_dec rc (inject_Z c)) as [Htop | Hmid].
    + right. split; [exact Htop|].
      assert (Hk : k == rc - 1).
      { unfold k. repeat clamp_cases; lra. }
      assert (Hp : rh * (k + 1) == H) by (rewrite Hk, <- Hrows; ring).
      destruct (min_cases H (rh * (k + 1))) as [[? ->]|[? ->]]; lra.
    + left. split; [lia|]. split; [exact Hmid|].
      assert (Hk : k == inject_Z c - 1).
      { unfold k. repeat clamp_cases; lra. }
      assert (Hp : rh * (k + 1) == rh * inject_Z c) by (rewrite Hk; ring).
      assert (Hb : rh * inject_Z c <= H) by nra.
      destruct (min_cases H (rh * (k + 1))) as [[? ->]|[? ->]]; lra.
Qed.



(** On the stage, the baseline is at or below the bottom edge. *)
Lemma baseline_below (b : Q) : 0 < b -> b <= H -> b <= baselineOf rc H b.
Proof.
  intros Hb HbH.
  pose proof rowHeight_rows as Hrows.
  pose proof rowHeight_pos as Hrh.
  pose proof (ceiling_bounds (b / rh)) as [Hlo _].
  assert (Et : b == rh * (b / rh)).
  { field. lra. }
  destruct (baseline_cases b) as [[Hc HB] | [[Hc [Hcr HB]] | [Hcr HB]]];
    rewrite HB; [| |exact HbH].
  - assert (Hc' : inject_Z (Qceiling (b / rh)) <= 1).
    { change 1 with (inject_Z 1). now rewrite <- Zle_Qle. }
    nra.
  - nra.
Qed.

(** Below the stage, the baseline is the bottom of the stage. *)
Lemma baseline_top (b : Q) : H < b -> baselineOf rc H b == H.
Proof.
  intros HbH.
  pose proof rowHeight_rows as Hrows.
  pose proof rowHeight_pos as Hrh.
  pose proof (ceiling_bounds (b / rh)) as [Hlo _].
  assert (Et : rc < b / rh).
  { apply Qlt_shift_div_l; [exact Hrh|]. lra. }
  destruct (baseline_cases b) as [[Hc HB] | [[Hc [Hcr HB]] | [Hcr HB]]].
  - assert (Hc' : inject_Z (Qceiling (b / rh)) <= 1).
    { change 1 with (inject_Z 1). now rewrite <- Zle_Qle. }
    lra.
  - lra.
  - exact HB.
Qed.

Lemma baseline_pos (b : Q) : 0 < baselineOf rc H b.
Proof.
  pose proof rowHeight_pos as Hrh.
  destruct (baseline_cases b) as [[Hc HB] | [[Hc [Hcr HB]] | [Hcr HB]]];
    rewrite HB; [exact Hrh| |exact H_pos].
  assert (Hc' : 1 <= inject_Z (Qceiling (b / rh))).
  { change 1 with (inject_Z 1). now rewrite <- Zle_Qle. }
  nra.
Qed.

(** No baseline lies above the bottom of the first row. *)
Lemma baseline_row (b : Q) : rh <= baselineOf rc H b.
Proof.
  pose proof rowHeight_pos as Hrh.
  pose proof rowHeight_le as Hle.
  destruct (baseline_cases b) as [[Hc HB] | [[Hc [Hcr HB]] | [Hcr HB]]];
    rewrite HB; [lra| |exact Hle].
  assert (Hc' : 1 <= inject_Z (Qceiling (b / rh))).
  { change 1 with (inject_Z 1). now rewrite <- Zle_Qle. }
  nra.
Qed.

End Rows.

(** ** Row alignment applied twice *)


(** ** Resize *)

Lemma moveItem_resize (g : Q) (d : DragState) (px py : Q) (it : PlanoItem) :
  resizing d = true -> id it = drag_id d ->
  moveItem g d px py it =
  with_wh it (snap (JS.max 20 (px - x it)) g) (snap (JS.max 20 (py - y it)) g).
Proof.
  intros Hr Hid. unfold moveItem.
  apply String.eqb_eq in Hid. now rewrite Hid, Hr.
Qed.

(** What the clamp to 20 followed by [snap] does guarantee: the result is
    at least one grid cell, and at least 20 when the grid size is at most
    40/3 or at least 20. *)
Lemma snap_clamped_lower (v g : Q) :
  10 <= g -> g <= 40 -> 20 <= v ->
  g <= snap v g /\ (g <= 40 # 3 \/ 20 <= g -> 20 <= snap v g).
Proof.
  intros Hlo Hhi Hv. unfold snap.
  pose proof (round_bounds (v / g)) as [Hr _].
  assert (Ev : v == g * (v / g)) by (field; lra).
  assert (Hn : exists n : Z, JS.round (v / g) = inject_Z n)
    by (eexists; reflexivity).
  destruct Hn as [n En]. rewrite En in *.
  assert (Hn1 : (1 <= n)%Z).
  { assert (Hq : 0 < inject_Z n) by nra.
    change 0 with (inject_Z 0) in Hq. rewrite <- Zlt_Qlt in Hq. lia. }
  assert (Hq1 : 1 <= inject_Z n).
  { change 1 with (inject_Z 1). now rewrite <- Zle_Qle. }
  split; [nra|].
  intros [Hsmall | Hbig]; [|nra].
  assert (Hn2 : (2 <= n)%Z).
  { assert (Hq : 1 < inject_Z n) by nra.
    change 1 with (inject_Z 1) in Hq. rewrite <- Zlt_Qlt in Hq. lia. }
  assert (Hq2 : 2 <= inject_Z n).
  { change 2 with (inject_Z 2). now rewrite <- Zle_Qle. }
  nra.
Qed.

(** C3.  A resize pointer-move commits [snap (max 20 (pointer - origin))]
    as the new width and height, but the snap that follows the clamp can
    go below 20: on grid size 14, with the pointer above and left of the
    origin of the resized item, the committed width and height are 14. *)
Theorem resize_below_minimum_on_grid_14 :
  10 <= gridSize resizingA /\ gridSize resizingA <= 40 /\
  drag resizingA = Some (mkDrag "A" 155 115 true) /\
  items (onPointerMove resizingA 50 50)
  = [with_wh boxA (snap (JS.max 20 (50 - x boxA)) 14)
                  (snap (JS.max 20 (50 - y boxA)) 14); boxB] /\
  w (with_wh boxA (snap (JS.max 20 (50 - x boxA)) 14)
                  (snap (JS.max 20 (50 - y boxA)) 14)) == 14 /\
  h (with_wh boxA (snap (JS.max 20 (50 - x boxA)) 14)
                  (snap (JS.max 20 (50 - y boxA)) 14)) == 14 /\
  ~ 20 <= snap (JS.max 20 (50 - x boxA)) 14.
Proof.
  split; [vm_compute; discriminate|].
  split; [vm_compute; discriminate|].
  split; [reflexivity|]. split; [reflexivity|].
  split; [reflexivity|]. split; [reflexivity|].
  intros Hle. vm_compute in Hle. apply Hle. reflexivity.
Qed.

(** * Further properties of the component *)

(** ** [snap] as rounding *)

(** X1. For a positive grid size, [snap] returns an integer multiple of
    the grid size that is at most half a cell away from the value. *)
Theorem snap_nearest_multiple (v g : Q) :
  0 < g ->
  (exists n : Z, snap v g = inject_Z n * g) /\
  Qabs (snap v g - v) <= g / 2.
Proof.
  intros Hg. split; [eexists; reflexivity|].
  unfold snap. destruct (round_bounds (v / g)) as [Hlo Hhi].
  assert (Ev : v == g * (v / g)) by (field; lra).
  apply Qabs_Qle_condition.
  assert (Eh : g / 2 == g * (1 # 2)) by field.
  rewrite Eh. split; nra.
Qed.

Lemma snap_nearest_multiple_witness :
  (exists n : Z, snap 77 20 = inject_Z n * 20) /\
  Qabs (snap 77 20 - 77) <= 20 / 2.
Proof. apply (snap_nearest_multiple 77 20). reflexivity. Defined.

Lemma round_monotone (p q : Q) : p <= q -> JS.round p <= JS.round q.
Proof.
  intros Hpq. unfold JS.round. rewrite <- Zle_Qle.
  apply Qfloor_resp_le. lra.
Qed.

(** X2. For a positive grid size, [snap] is monotone: a larger value never
    snaps to a smaller grid line. *)
Theorem snap_monotone (u v g : Q) :
  0 < g -> u <= v -> snap u g <= snap v g.
Proof.
  intros Hg Huv. unfold snap.
  assert (Hdiv : u / g <= v / g).
  { unfold Qdiv. apply Qmult_le_compat_r; [exact Huv|].
    apply Qlt_le_weak, Qinv_lt_0_compat, Hg. }
  apply Qmult_le_compat_r; [now apply round_monotone | lra].
Qed.

Lemma snap_monotone_witness : snap 69 20 <= snap 77 20.
Proof. apply (snap_monotone 69 77 20); [reflexivity | discriminate]. Defined.

(** ** Input sanitising *)

Ltac clamp_with lem a b :=
  let E := fresh "E" in
  destruct (lem a b) as [[? E]|[? E]]; rewrite E in *; clear E.

Ltac clamp_everywhere :=
  match goal with
  | |- context [JS.min ?a ?b] => clamp_with min_cases a b
  | |- context [JS.max ?a ?b] => clamp_with max_cases a b
  | _ : context [JS.min ?a ?b] |- _ => clamp_with min_cases a b
  | _ : context [JS.max ?a ?b] |- _ => clamp_with max_cases a b
  end.

Lemma orNum_or (v : JS.value) (d : Q) :
  JS.or v (JS.Num d) = JS.Num (orNum v d).
Proof.
  unfold orNum, JS.or. destruct v as [| |q]; simpl; try reflexivity.
  now destruct (Qeq_bool q 0).
Qed.

Lemma orNum_cases (v : JS.value) (d : Q) :
  (exists q, v = JS.Num q /\ ~ q == 0 /\ orNum v d = q) \/
  ((missing v \/ exists q, v = JS.Num q /\ q == 0) /\ orNum v d = d).
Proof.
  unfold orNum, JS.or, missing. destruct v as [| |q]; simpl.
  - right. split; [left; now left | reflexivity].
  - right. split; [left; now right | reflexivity].
  - destruct (Qeq_bool q 0) eqn:E; simpl.
    + right. apply Qeq_bool_iff in E. split; [right; now exists q | reflexivity].
    + left. exists q. split; [reflexivity|]. split; [|reflexivity].
      intros Hq. apply Qeq_bool_iff in Hq. congruence.
Qed.

(** X3. Whatever the number fields parse to, a number or [NaN], the
    handlers store a value inside its bounds: depth and quantity at least
    0, scale at least 2, container depth at least 1, rows between 1 and 12.
    A parsed value that is already inside the bounds (and, for the scale,
    the container depth and the rows, is not 0) is stored as it is. *)
Theorem inputs_within_bounds (parsed : JS.value) :
  (0 <= depthInput parsed /\ 0 <= qtyInput parsed /\
   2 <= pxPerCmInput parsed /\ 1 <= containerDepthInput parsed /\
   1 <= rowCountInput parsed /\ rowCountInput parsed <= 12) /\
  (forall q, parsed = JS.Num q ->
     (0 <= q -> depthInput parsed == q /\ qtyInput parsed == q) /\
     (2 <= q -> pxPerCmInput parsed == q) /\
     (1 <= q -> containerDepthInput parsed == q) /\
     (1 <= q -> q <= 12 -> rowCountInput parsed == q)) /\
  (missing parsed ->
     depthInput parsed = 0 /\ qtyInput parsed = 0 /\
     pxPerCmInput parsed = 10 /\ containerDepthInput parsed = 1 /\
     rowCountInput parsed = 1).
Proof.
  unfold depthInput, qtyInput, pxPerCmInput, containerDepthInput,
    rowCountInput.
  split; [|split].
  - repeat split; repeat clamp_everywhere; lra.
  - intros q ->.
    repeat split; intros; try split;
      match goal with
      | |- context [orNum (JS.Num q) ?d] =>
          destruct (orNum_cases (JS.Num q) d)
            as [(q' & [= <-] & Hnz & ->) | ([[[=]|[=]] | (q' & [= <-] & Hz)] & ->)]
      end; repeat clamp_everywhere; lra.
  - intros [-> | ->]; repeat split; reflexivity.
Qed.

Lemma inputs_within_bounds_witness :
  rowCountInput (JS.Num 5) == 5 /\ containerDepthInput JS.NaN = 1.
Proof.
  split.
  - apply (proj1 (proj2 (inputs_within_bounds (JS.Num 5))) 5 eq_refl);
      discriminate.
  - apply (proj2 (proj2 (inputs_within_bounds JS.NaN))). right. reflexivity.
Defined.

(** ** Inspector updates *)

Lemma isSelectedId_none (st : State) (l : list PlanoItem) :
  find (isSelectedId st) l = None ->
  forall f : PlanoItem -> PlanoItem,
    map (fun it => if isSelectedId st it then f it else it) l = l.
Proof.
  intros Hf f. induction l as [|it l IH]; simpl in *; [reflexivity|].
  destruct (isSelectedId st it); [discriminate|].
  now rewrite IH.
Qed.

Lemma selected_find (st : State) :
  selected st = find (isSelectedId st) (items st).
Proof.
  unfold selected, isSelectedId. destruct (selectedId st) as [s|].
  - reflexivity.
  - induction (items st) as [|it l IH]; simpl; auto.
Qed.

Lemma setItems_same (st : State) : setItems st (items st) = st.
Proof. now destruct st. Qed.

(** X4. The inspector's updates touch nothing but the field they name, and
    only in items that carry the selected id: ids, order, geometry and
    colour of every item are kept, and when no item is selected (no
    selection, or a selection that no item carries) the state is left as it
    is. *)
Theorem inspector_updates_frame (st : State) (d q : Q) (n : string) :
  let geometry := fun it => (id it, x it, y it, w it, h it, color it) in
  (map geometry (items (updateDepth st d)) = map geometry (items st) /\
   map qty (items (updateDepth st d)) = map qty (items st) /\
   map name (items (updateDepth st d)) = map name (items st)) /\
  (map geometry (items (updateQty st q)) = map geometry (items st) /\
   map depth (items (updateQty st q)) = map depth (items st) /\
   map name (items (updateQty st q)) = map name (items st)) /\
  (map geometry (items (updateName st n)) = map geometry (items st) /\
   map depth (items (updateName st n)) = map depth (items st) /\
   map qty (items (updateName st n)) = map qty (items st)) /\
  (selected st = None ->
   updateDepth st d = st /\ updateQty st q = st /\ updateName st n = st).
Proof.
  intros geometry.
  assert (Hmap : forall (B : Type) (key : PlanoItem -> B)
                        (f : PlanoItem -> PlanoItem),
             (forall it, key (f it) = key it) ->
             map key (map (fun it => if isSelectedId st it then f it else it)
                          (items st))
             = map key (items st)).
  { intros B key f Hkey. rewrite map_map. apply map_ext.
    intros it. destruct (isSelectedId st it); [apply Hkey | reflexivity]. }
  unfold updateDepth, updateQty, updateName. simpl.
  repeat split; try (apply Hmap; reflexivity).
  all: match goal with
       | Hsel : selected ?s = None |- _ =>
           rewrite selected_find in Hsel;
           rewrite (isSelectedId_none s _ Hsel); apply setItems_same
       end.
Qed.

Lemma inspector_updates_frame_witness :
  updateDepth (setSelectedId initialState None) 99
  = setSelectedId initialState None.
Proof.
  apply (proj2 (proj2 (proj2 (inspector_updates_frame
                                (setSelectedId initialState None) 99 0 "")))).
  reflexivity.
Defined.

(** X5. After the depth of the selected item has been set to [d], that
    item is on the depth alert list exactly when its quantity is a number
    [q] with [q * d] greater than the container depth (for a container
    depth that is not negative): clearing the depth field, which stores 0,
    takes the item off the list. *)
Theorem updateDepth_alert (st : State) (d : Q) (it : PlanoItem) :
  0 <= containerDepth st ->
  In it (items st) -> isSelectedId st it = true ->
  (In (with_depth it (JS.Num d)) (depthAlerts (updateDepth st d)) <->
   exists q, qty it = JS.Num q /\ containerDepth st < q * d) /\
  ~ In (with_depth it (JS.Num (depthInput JS.NaN)))
       (depthAlerts (updateDepth st (depthInput JS.NaN))).
Proof.
  intros Hc Hin Hsel.
  assert (Hflag : forall d',
             depthExceeded (containerDepth st) (with_depth it (JS.Num d')) = true
             <-> exists q, qty it = JS.Num q /\ containerDepth st < q * d').
  { intros d'. unfold depthExceeded. simpl.
    destruct (or_zero_num d') as [d'' [-> Ed]].
    destruct (qty it) as [| |q] eqn:Eq.
    - simpl. split; [|intros (q & [=] & _)].
      intros Hlt. apply ltb_lt in Hlt. lra.
    - simpl. split; [|intros (q & [=] & _)].
      intros Hlt. apply ltb_lt in Hlt. lra.
    - destruct (or_zero_num q) as [q' [-> Eq']]. simpl.
      rewrite ltb_lt, Eq', Ed. split.
      + intros Hlt. now exists q.
      + intros (q0 & [= <-] & Hlt). exact Hlt. }
  assert (Hmem : forall d',
             In (with_depth it (JS.Num d')) (depthAlerts (updateDepth st d'))
             <-> depthExceeded (containerDepth st) (with_depth it (JS.Num d'))
                 = true).
  { intros d'. unfold depthAlerts, updateDepth. simpl.
    rewrite filter_In. split; [tauto|]. intros Hd. split; [|exact Hd].
    apply in_map_iff. exists it. now rewrite Hsel. }
  split.
  - now rewrite Hmem, Hflag.
  - rewrite Hmem, Hflag. intros (q & _ & Hlt).
    change (depthInput JS.NaN) with 0 in Hlt. lra.
Qed.

Lemma updateDepth_alert_witness :
  In (with_depth boxA (JS.Num 50)) (depthAlerts (updateDepth initialState 50))
  <-> exists q, qty boxA = JS.Num q /\ containerDepth initialState < q * 50.
Proof.
  apply (updateDepth_alert initialState 50 boxA).
  - discriminate.
  - left. reflexivity.
  - reflexivity.
Defined.

(** ** Stage measurement *)

Lemma measuredSize_cases (prev : StageSize) (nw nh : Q) :
  (Qabs (width prev - nw) < 1 # 2 /\ Qabs (height prev - nh) < 1 # 2 /\
   measuredSize prev nw nh = prev) \/
  measuredSize prev nw nh = mkStage nw nh.
Proof.
  unfold measuredSize, JS.abs.
  destruct (JS.ltb (Qabs (width prev - nw)) (1 # 2)) eqn:Ew; [|now right].
  destruct (JS.ltb (Qabs (height prev - nh)) (1 # 2)) eqn:Eh; [|now right].
  left. apply ltb_lt in Ew, Eh. auto.
Qed.

Lemma measuredSize_unchanged (prev : StageSize) (nw nh : Q) :
  Qabs (width prev - nw) < 1 # 2 -> Qabs (height prev - nh) < 1 # 2 ->
  measuredSize prev nw nh = prev.
Proof.
  intros Hw Hh. unfold measuredSize, JS.abs.
  apply ltb_lt in Hw, Hh. now rewrite Hw, Hh.
Qed.

(** X6. The stored stage size is always within half a pixel of the last
    measurement in both dimensions, and measuring the same size again
    changes nothing. *)
Theorem measuredSize_close (prev : StageSize) (nw nh : Q) :
  Qabs (width (measuredSize prev nw nh) - nw) < 1 # 2 /\
  Qabs (height (measuredSize prev nw nh) - nh) < 1 # 2 /\
  measuredSize (measuredSize prev nw nh) nw nh = measuredSize prev nw nh.
Proof.
  assert (Hclose : Qabs (width (measuredSize prev nw nh) - nw) < 1 # 2 /\
                   Qabs (height (measuredSize prev nw nh) - nh) < 1 # 2).
  { destruct (measuredSize_cases prev nw nh) as [(Hw & Hh & ->) | ->].
    - now split.
    - cbn [width height]. split; apply Qabs_Qlt_condition; lra. }
  destruct Hclose as [Hw Hh]. split; [exact Hw|]. split; [exact Hh|].
  now apply measuredSize_unchanged.
Qed.

(** ** Cursor hint and resize handle *)

Lemma withinHandle_iff (px py : Q) (it : PlanoItem) :
  withinHandle px py it = true <->
  x it + w it - 14 <= px /\ px <= x it + w it /\
  y it + h it - 14 <= py /\ py <= y it + h it.
Proof.
  unfold withinHandle. cbv zeta.
  rewrite !andb_true_iff, !Qle_bool_iff. tauto.
Qed.

(** X7. Outside measure mode the cursor hint tells what a pointer-down at
    the same place does: the resize cursor where it starts a resize of the
    top item, the grab cursor where it starts a move of the top item, the
    default cursor where it clears the selection and starts nothing.  In
    measure mode the cursor is the crosshair and a pointer-down starts a
    measurement at the pointer. *)
Theorem cursor_predicts_gesture (st : State) (px py : Q) :
  let after := onPointerDown st px py in
  match onPointerMoveStage st px py with
  | Crosshair =>
      measureMode st = true /\
      measure after = mkMeasure true px py 0 0 /\
      drag after = drag st /\ selectedId after = selectedId st
  | NwseResize =>
      exists top, topItem px py (items st) = Some top /\
        selectedId after = Some (id top) /\
        drag after = Some (mkDrag (id top) (px - x top) (py - y top) true)
  | Grab =>
      exists top, topItem px py (items st) = Some top /\
        selectedId after = Some (id top) /\
        drag after = Some (mkDrag (id top) (px - x top) (py - y top) false)
  | DefaultCursor =>
      measureMode st = false /\
      selectedId after = None /\ drag after = drag st
  end.
Proof.
  unfold onPointerMoveStage, onPointerDown.
  destruct (measureMode st) eqn:Em; cbv zeta.
  - repeat split; reflexivity.
  - destruct (topItem px py (items st)) as [top|].
    + destruct (withinHandle px py top) eqn:Eh;
        exists top; repeat split; reflexivity.
    + repeat split; reflexivity.
Qed.

(** X8. The resize handle and the item body.  The 14px handle zone lies
    inside the rectangle of an item that is at least 14px wide and tall,
    and it covers the whole rectangle of an item that is at most 14px wide
    and tall: a pointer-down on such an item always starts a resize, never
    a move. *)
Theorem handle_zone (st : State) (px py : Q) (it : PlanoItem) :
  (14 <= w it -> 14 <= h it ->
   withinHandle px py it = true -> hit px py it = true) /\
  (w it <= 14 -> h it <= 14 ->
   hit px py it = true -> withinHandle px py it = true) /\
  (measureMode st = false -> topItem px py (items st) = Some it ->
   w it <= 14 -> h it <= 14 ->
   exists d, drag (onPointerDown st px py) = Some d /\ resizing d = true).
Proof.
  split; [|split].
  - intros Hw Hh Hin. apply withinHandle_iff in Hin.
    apply hit_contains. unfold contains. lra.
  - intros Hw Hh Hin. apply hit_contains in Hin. unfold contains in Hin.
    apply withinHandle_iff. lra.
  - intros Hm Htop Hw Hh. unfold onPointerDown. rewrite Hm, Htop. simpl.
    eexists. split; [reflexivity|]. simpl.
    unfold topItem in Htop. apply find_some in Htop. destruct Htop as [_ Hin].
    apply hit_contains in Hin. unfold contains in Hin.
    apply withinHandle_iff. lra.
Qed.

Lemma handle_zone_witness :
  exists d,
    drag (onPointerDown
            (handleAll (gridState 14)
                       [PointerDown 215 175; PointerMove 50 50; PointerUp])
            65 65) = Some d /\
    resizing d = true.
Proof.
  apply (proj2 (proj2 (handle_zone
                         (handleAll (gridState 14)
                            [PointerDown 215 175; PointerMove 50 50; PointerUp])
                         65 65 (with_wh boxA 14 14)))).
  - reflexivity.
  - reflexivity.
  - discriminate.
  - discriminate.
Defined.

(** ** Sequences of pointer events *)

Lemma alignItemToRows_fixed (rc : Q) (it : PlanoItem) (sh : JS.value) :
  fixedFields (alignItemToRows rc it sh) = fixedFields it.
Proof.
  destruct (alignItemToRows_cases rc it sh) as [-> | (H & _ & ->)]; reflexivity.
Qed.

Lemma moveItem_fixed (g : Q) (d : DragState) (px py : Q) (it : PlanoItem) :
  fixedFields (moveItem g d px py it) = fixedFields it.
Proof.
  unfold moveItem. destruct (negb _); [reflexivity|].
  destruct (resizing d); reflexivity.
Qed.

Lemma handle_fixed (st : State) (e : PointerEvent) :
  map fixedFields (items (handle st e)) = map fixedFields (items st) /\
  settings (handle st e) = settings st.
Proof.
  destruct e as [px py | px py |]; simpl.
  - unfold onPointerDown. destruct (measureMode st); [now split|].
    destruct (topItem px py (items st)); now split.
  - unfold onPointerMove.
    destruct (measureMode st && active (measure st)); [now split|].
    destruct (drag st) as [d|]; [|now split]. simpl. split; [|reflexivity].
    rewrite map_map. apply map_ext. apply moveItem_fixed.
  - unfold onPointerUp.
    destruct (measureMode st && active (measure st)); [now split|].
    destruct (drag st) as [d|]; [|now split].
    destruct (JS.truthy (JS.Num (height (stageSize st)))); [|now split].
    simpl. split; [|reflexivity].
    rewrite map_map. apply map_ext. intros it.
    destruct (String.eqb (id it) (drag_id d)); [|reflexivity].
    apply alignItemToRows_fixed.
Qed.

(** X9. No sequence of pointer events adds, removes or reorders items, or
    changes the id, name, depth, quantity or colour of an item; and none
    changes the grid size, the container depth, the measure mode, the row
    count or the stage size. *)
Theorem pointer_events_keep_identity (es : list PointerEvent) (st : State) :
  map fixedFields (items (handleAll st es)) = map fixedFields (items st) /\
  settings (handleAll st es) = settings st.
Proof.
  revert st. induction es as [|e es IH]; intros st; [now split|].
  unfold handleAll in *. simpl.
  destruct (IH (handle st e)) as [-> ->]. apply handle_fixed.
Qed.

Lemma handle_measuring (st : State) (e : PointerEvent) :
  measureMode st = true -> drag st = None ->
  items (handle st e) = items st /\
  selectedId (handle st e) = selectedId st /\
  drag (handle st e) = None /\ measureMode (handle st e) = true.
Proof.
  intros Hm Hd. destruct e as [px py | px py |]; simpl.
  - unfold onPointerDown. rewrite Hm. simpl. auto.
  - unfold onPointerMove. rewrite Hm, Hd.
    destruct (active (measure st)); simpl; auto.
  - unfold onPointerUp. rewrite Hm, Hd.
    destruct (active (measure st)); simpl; auto.
Qed.

(** X10. In measure mode, with no drag pending, no sequence of pointer
    events moves, resizes or re-aligns an item, changes the selection or
    starts a drag. *)
Theorem measuring_leaves_items (es : list PointerEvent) (st : State) :
  measureMode st = true -> drag st = None ->
  items (handleAll st es) = items st /\
  selectedId (handleAll st es) = selectedId st /\
  drag (handleAll st es) = None.
Proof.
  revert st. induction es as [|e es IH]; intros st Hm Hd; [now auto|].
  destruct (handle_measuring st e Hm Hd) as (Hi & Hs & Hd' & Hm').
  unfold handleAll in *. simpl.
  destruct (IH (handle st e) Hm' Hd') as (-> & -> & ->). auto.
Qed.

Lemma measuring_leaves_items_witness :
  items (handleAll measuringState
                   [PointerDown 70 70; PointerMove 300 300; PointerUp;
                    PointerMove 10 10])
  = [boxA; boxB].
Proof.
  apply (measuring_leaves_items
           [PointerDown 70 70; PointerMove 300 300; PointerUp;
            PointerMove 10 10]
           measuringState);
    reflexivity.
Defined.

Lemma moves_while_measuring (moves : list PointerEvent) :
  Forall isMove moves ->
  forall (st : State) (a b : Q),
    measureMode st = true ->
    active (measure st) = true -> mx (measure st) = a -> my (measure st) = b ->
    let st' := handleAll st moves in
    measureMode st' = true /\ gridSize st' = gridSize st /\
    active (measure st') = true /\
    mx (measure st') = a /\ my (measure st') = b.
Proof.
  induction 1 as [|e moves He _ IH]; intros st a b Hm Ha Hx Hy; [now auto|].
  destruct e as [px py | px py |]; try contradiction.
  unfold handleAll in *. simpl.
  assert (Hstep : onPointerMove st px py
                  = setMeasure st (mkMeasure true a b (px - a) (py - b))).
  { unfold onPointerMove. rewrite Hm, Ha, Hx, Hy. reflexivity. }
  rewrite Hstep.
  apply (IH (setMeasure st (mkMeasure true a b (px - a) (py - b))) a b);
    auto.
Qed.

(** X11. A measuring gesture records the rectangle between the point of
    the pointer-down and the last pointer-move, whatever moves came in
    between: after the pointer-up the measurement is inactive, anchored at
    the pointer-down, and its width and height are the snapped distances to
    the last pointer position. *)
Theorem measuring_gesture (st : State) (a b c d : Q)
    (moves : list PointerEvent) :
  measureMode st = true -> Forall isMove moves ->
  measure (handleAll st (PointerDown a b :: moves
                         ++ [PointerMove c d; PointerUp]))
  = mkMeasure false a b (snap (c - a) (gridSize st)) (snap (d - b) (gridSize st)).
Proof.
  intros Hm Hmoves. unfold handleAll. simpl. rewrite fold_left_app. simpl.
  assert (Hdown : onPointerDown st a b = setMeasure st (mkMeasure true a b 0 0)).
  { unfold onPointerDown. now rewrite Hm. }
  rewrite Hdown.
  pose proof (moves_while_measuring moves Hmoves
                (setMeasure st (mkMeasure true a b 0 0)) a b Hm
                eq_refl eq_refl eq_refl) as (Hm' & Hg & Ha & Hx & Hy).
  unfold handleAll in *.
  set (s1 := fold_left handle moves (setMeasure st (mkMeasure true a b 0 0)))
    in *.
  simpl in Hg.
  unfold onPointerUp, onPointerMove. rewrite Hm', Ha. simpl.
  rewrite Hm'. simpl. now rewrite Hx, Hy, Hg.
Qed.

Lemma measuring_gesture_witness :
  measure (handleAll measuringState
                     (PointerDown 10 10 :: [PointerMove 500 5]
                      ++ [PointerMove 95 128; PointerUp]))
  = mkMeasure false 10 10 (snap (95 - 10) 20) (snap (128 - 10) 20).
Proof.
  apply (measuring_gesture
           measuringState
           10 10 95 128 [PointerMove 500 5]).
  - reflexivity.
  - repeat constructor.
Defined.

(** ** Measurement overlay *)

Lemma floor_unit (q : Q) : 0 <= q -> q < 1 -> Qfloor q = 0%Z.
Proof.
  intros Hlo Hhi.
  pose proof (Qfloor_le q) as Hf. pose proof (Qlt_floor q) as Hc.
  assert (H1 : inject_Z (Qfloor q) < inject_Z 1)
    by (change (inject_Z 1) with 1; lra).
  assert (H2 : inject_Z 0 < inject_Z (Qfloor q + 1))
    by (change (inject_Z 0) with 0; lra).
  rewrite <- Zlt_Qlt in H1, H2. lia.
Qed.

(** A value less than half a cell away from 0 snaps to 0. *)
Lemma snap_small (v g : Q) : 0 < g -> Qabs v < g / 2 -> snap v g == 0.
Proof.
  intros Hg Hv. apply Qabs_Qlt_condition in Hv.
  assert (Eh : g / 2 == g * (1 # 2)) by field.
  rewrite Eh in Hv. destruct Hv as [Hlo Hhi].
  assert (Ev : v == g * (v / g)) by (field; lra).
  unfold snap, JS.round. rewrite floor_unit; [ring | nra | nra].
Qed.

Lemma measuring_down_move (st : State) (a b c d : Q) :
  measureMode st = true ->
  measure (handleAll st [PointerDown a b; PointerMove c d])
  = mkMeasure true a b (c - a) (d - b) /\
  measure (handleAll st [PointerDown a b; PointerMove c d; PointerUp])
  = mkMeasure false a b (snap (c - a) (gridSize st))
              (snap (d - b) (gridSize st)).
Proof.
  intros Hm. unfold handleAll. simpl.
  unfold onPointerUp, onPointerMove, onPointerDown. rewrite Hm. simpl.
  rewrite Hm. simpl. rewrite Hm. simpl. split; reflexivity.
Qed.

Lemma span_cases (a v : Q) :
  0 <= Qabs v /\
  ((JS.min a (a + v) == a /\ JS.min a (a + v) + Qabs v == a + v) \/
   (JS.min a (a + v) == a + v /\ JS.min a (a + v) + Qabs v == a)).
Proof.
  split; [apply Qabs_nonneg|].
  destruct (Qlt_le_dec v 0) as [Hneg | Hpos].
  - rewrite (Qabs_neg v) by lra.
    destruct (min_cases a (a + v)) as [[? ->]|[? ->]]; [lra|].
    right. split; [reflexivity | ring].
  - rewrite (Qabs_pos v) by lra.
    destruct (min_cases a (a + v)) as [[? ->]|[? ->]].
    + left. split; reflexivity.
    + right. split; [reflexivity | lra].
Qed.

(** X12. While a measurement is being drawn, the overlay is shown and its
    rectangle is exactly the one spanned by the anchor and the pointer: in
    each axis the near edge and the far edge are the anchor and the
    pointer, in this order or the other, with the near edge first,
    whichever way the pointer was dragged.  After the release the overlay
    is hidden exactly when the snapped width or the snapped height is 0,
    which is the case whenever the pointer ended less than half a grid cell
    from the anchor in one axis. *)
Theorem measure_overlay_extent (st : State) (a b c d : Q) :
  measureMode st = true ->
  (exists r,
      measureOverlay (measure (handleAll st [PointerDown a b; PointerMove c d]))
      = Some r /\
      0 <= rectWidth r /\ 0 <= rectHeightPx r /\
      ((rectLeft r == a /\ rectLeft r + rectWidth r == c) \/
       (rectLeft r == c /\ rectLeft r + rectWidth r == a)) /\
      ((rectTop r == b /\ rectTop r + rectHeightPx r == d) \/
       (rectTop r == d /\ rectTop r + rectHeightPx r == b))) /\
  (measureOverlay
     (measure (handleAll st [PointerDown a b; PointerMove c d; PointerUp]))
   = None <->
   snap (c - a) (gridSize st) == 0 \/ snap (d - b) (gridSize st) == 0) /\
  (0 < gridSize st ->
   Qabs (c - a) < gridSize st / 2 \/ Qabs (d - b) < gridSize st / 2 ->
   measureOverlay
     (measure (handleAll st [PointerDown a b; PointerMove c d; PointerUp]))
   = None).
Proof.
  intros Hm. destruct (measuring_down_move st a b c d Hm) as [-> ->].
  assert (Hhidden :
            measureOverlay (mkMeasure false a b (snap (c - a) (gridSize st))
                                      (snap (d - b) (gridSize st))) = None
            <-> snap (c - a) (gridSize st) == 0 \/
                snap (d - b) (gridSize st) == 0).
  { unfold measureOverlay. simpl.
    destruct (Qeq_bool (snap (c - a) (gridSize st)) 0) eqn:Ew;
      destruct (Qeq_bool (snap (d - b) (gridSize st)) 0) eqn:Eh; simpl;
      try apply Qeq_bool_iff in Ew; try apply Qeq_bool_iff in Eh;
      try (split; [intros _; auto | reflexivity]).
    split; [discriminate|].
    intros [Hz | Hz]; apply Qeq_bool_iff in Hz; congruence. }
  split; [|split].
  - exists (mkRect (JS.min a (a + (c - a))) (JS.min b (b + (d - b)))
                   (JS.abs (c - a)) (JS.abs (d - b))).
    split; [reflexivity|].
    cbn [rectLeft rectTop rectWidth rectHeightPx]. unfold JS.abs.
    destruct (span_cases a (c - a)) as (Hw & Hx).
    destruct (span_cases b (d - b)) as (Hh & Hy).
    split; [exact Hw|]. split; [exact Hh|]. split.
    + destruct Hx as [[H1 H2]|[H1 H2]]; [left | right]; split; lra.
    + destruct Hy as [[H1 H2]|[H1 H2]]; [left | right]; split; lra.
  - exact Hhidden.
  - intros Hg [Hs | Hs]; apply Hhidden; [left | right];
      now apply snap_small.
Qed.

Lemma measure_overlay_extent_witness :
  measureOverlay
    (measure (handleAll measuringState
                        [PointerDown 100 100; PointerMove 300 109; PointerUp]))
  = None.
Proof.
  apply (proj2 (proj2 (measure_overlay_extent measuringState
                         100 100 300 109 eq_refl))).
  - reflexivity.
  - right. reflexivity.
Defined.

(** ** Moving and resizing on the grid *)

Lemma snap_on_grid (v g : Q) (n : Z) :
  ~ g == 0 -> v == inject_Z n * g -> snap v g = inject_Z n * g.
Proof.
  intros Hg Hv. unfold snap. f_equal. apply round_integer.
  rewrite Hv. now field.
Qed.

Lemma nth_error_middle {A B : Type} (f : A -> B) (l1 l2 : list A) (a : A) :
  nth_error (map f (l1 ++ a :: l2)) (List.length l1) = Some (f a).
Proof.
  rewrite nth_error_map, nth_error_app2 by apply Nat.le_refl.
  now rewrite Nat.sub_diag.
Qed.

Lemma pointerDown_grabs (st : State) (px py : Q)
    (l1 l2 : list PlanoItem) (it : PlanoItem) :
  measureMode st = false ->
  items st = l1 ++ it :: l2 ->
  contains px py it -> Forall (fun j => ~ contains px py j) l2 ->
  onPointerDown st px py
  = setDrag (setSelectedId st (Some (id it)))
            (Some (mkDrag (id it) (px - x it) (py - y it)
                          (withinHandle px py it))).
Proof.
  intros Hm Hl Hit Hl2. unfold onPointerDown.
  now rewrite Hm, Hl, (topItem_last px py l1 l2 it Hit Hl2).
Qed.

(** X13. A move drag keeps the grab point and the grid: when an item that
    sits on the grid is grabbed by its body and the pointer then moves by
    [k] cells horizontally and [l] cells vertically, the item is committed
    exactly [k] and [l] cells from where it was, with its size unchanged;
    in particular a pointer-move that returns to the grab point puts it
    back. *)
Theorem drag_by_whole_cells (st : State) (px py : Q) (k l : Z)
    (l1 l2 : list PlanoItem) (it : PlanoItem) :
  measureMode st = false -> 0 < gridSize st ->
  items st = l1 ++ it :: l2 ->
  contains px py it -> Forall (fun j => ~ contains px py j) l2 ->
  withinHandle px py it = false ->
  onGrid (gridSize st) it ->
  exists r,
    nth_error
      (items (handleAll st
                [PointerDown px py;
                 PointerMove (px + inject_Z k * gridSize st)
                             (py + inject_Z l * gridSize st)]))
      (List.length l1) = Some r /\
    x r == x it + inject_Z k * gridSize st /\
    y r == y it + inject_Z l * gridSize st /\
    w r = w it /\ h r = h it.
Proof.
  intros Hm Hg Hl Hit Hl2 Hbody (a & b & Hx & Hy).
  unfold handleAll. simpl.
  rewrite (pointerDown_grabs st px py l1 l2 it Hm Hl Hit Hl2), Hbody.
  unfold onPointerMove. simpl. rewrite Hm. simpl. rewrite Hl.
  rewrite nth_error_middle. eexists. split; [reflexivity|].
  unfold moveItem. simpl. rewrite String.eqb_refl. simpl.
  assert (Hnz : ~ gridSize st == 0) by lra.
  rewrite (snap_on_grid _ (gridSize st) (a + k) Hnz),
          (snap_on_grid _ (gridSize st) (b + l) Hnz).
  - rewrite !inject_Z_plus, Hx, Hy. repeat split; ring.
  - rewrite inject_Z_plus, Hy. ring.
  - rewrite inject_Z_plus, Hx. ring.
Qed.

Lemma drag_by_whole_cells_witness :
  exists r,
    nth_error
      (items (handleAll initialState
                [PointerDown 70 70;
                 PointerMove (70 + inject_Z 3 * 20) (70 + inject_Z (-1) * 20)]))
      0 = Some r /\
    x r == 60 + inject_Z 3 * 20 /\ y r == 60 + inject_Z (-1) * 20 /\
    w r = 160 /\ h r = 120.
Proof.
  apply (drag_by_whole_cells initialState 70 70 3 (-1) [] [boxB] boxA).
  - reflexivity.
  - reflexivity.
  - reflexivity.
  - unfold contains; simpl; lra.
  - repeat constructor. unfold contains; simpl; lra.
  - reflexivity.
  - exists 3%Z, 3%Z. split; reflexivity.
Defined.

Lemma max_ge_left (p q : Q) : p <= JS.max p q.
Proof. destruct (max_cases p q) as [[H ->]|[H ->]]; lra. Qed.

(** X14. A resize never moves the item's origin and commits a width and a
    height that are whole multiples of the grid size; for a grid size in
    the slider's range 10..40 both are at least one cell, and at least 20
    whenever the grid size is at most 40/3 or at least 20. *)
Theorem resize_result_bounds (g : Q) (d : DragState) (px py : Q)
    (it : PlanoItem) :
  10 <= g -> g <= 40 -> resizing d = true -> id it = drag_id d ->
  let r := moveItem g d px py it in
  x r = x it /\ y r = y it /\
  (exists m n : Z, w r = inject_Z m * g /\ h r = inject_Z n * g) /\
  g <= w r /\ g <= h r /\
  (g <= 40 # 3 \/ 20 <= g -> 20 <= w r /\ 20 <= h r).
Proof.
  intros Hlo Hhi Hr Hid r. subst r.
  rewrite (moveItem_resize g d px py it Hr Hid). simpl.
  destruct (snap_clamped_lower (JS.max 20 (px - x it)) g Hlo Hhi
              (max_ge_left 20 _)) as [Hw Hw'].
  destruct (snap_clamped_lower (JS.max 20 (py - y it)) g Hlo Hhi
              (max_ge_left 20 _)) as [Hh Hh'].
  split; [reflexivity|]. split; [reflexivity|].
  split; [do 2 eexists; split; reflexivity|].
  split; [exact Hw|]. split; [exact Hh|].
  intros Hrange. split; [now apply Hw' | now apply Hh'].
Qed.

Lemma resize_result_bounds_witness :
  20 <= w (moveItem 20 (mkDrag "A" 155 115 true) 50 50 boxA).
Proof.
  apply (resize_result_bounds 20 (mkDrag "A" 155 115 true) 50 50 boxA);
    try reflexivity; try discriminate.
  right. discriminate.
Defined.

(** ** Row alignment in the gestures and the effect *)

Lemma alignItemToRows_guarded (rc H : Q) (item : PlanoItem) :
  ~ H == 0 -> 0 < rc ->
  alignItemToRows rc item (JS.Num H) =
  if JS.ltb (JS.abs (alignedY rc H item - y item)) (1 # 100) then item
  else with_y item (alignedY rc H item).
Proof.
  intros HH Hrc. unfold alignItemToRows.
  assert (Ht : JS.truthy (JS.Num H) = true) by now apply truthy_num.
  assert (Hr : Qle_bool rc 0 = false) by now apply leb_gt.
  now rewrite Ht, Hr.
Qed.

Lemma baselineOf_le (rc H b : Q) : baselineOf rc H b <= H.
Proof.
  unfold baselineOf. cbv zeta.
  match goal with
  | |- JS.min ?a ?b <= _ => destruct (min_cases a b) as [[? ->]|[? ->]]
  end; lra.
Qed.

(** X17. Alignment keeps an item on the stage vertically: once the stage
    is measured and the row count is positive, the aligned item is never
    more than 0.01 above the top edge, and if the item is no taller than
    the stage its bottom edge is never more than 0.01 below the bottom of
    the stage. *)
Theorem aligned_inside_stage (rc H : Q) (item : PlanoItem) :
  ~ H == 0 -> 0 < rc ->
  - (1 # 100) < y (alignItemToRows rc item (JS.Num H)) /\
  (h item <= H ->
   y (alignItemToRows rc item (JS.Num H))
   + h (alignItemToRows rc item (JS.Num H)) < H + (1 # 100)).
Proof.
  intros HH Hrc. rewrite (alignItemToRows_guarded rc H item HH Hrc).
  pose proof (baselineOf_le rc H (y item + h item)) as HB.
  assert (HY : 0 <= alignedY rc H item /\
               (h item <= H -> alignedY rc H item + h item <= H)).
  { rewrite alignedY_baseline.
    destruct (max_cases 0 (baselineOf rc H (y item + h item) - h item))
      as [[? ->]|[? ->]]; split; intros; lra. }
  destruct HY as [HY0 HY1].
  destruct (JS.ltb (JS.abs (alignedY rc H item - y item)) (1 # 100)) eqn:Hnear.
  - apply ltb_lt in Hnear. unfold JS.abs in Hnear.
    apply Qabs_Qlt_condition in Hnear. split; [lra|].
    intros Hh. specialize (HY1 Hh). lra.
  - simpl. split; [lra|]. intros Hh. specialize (HY1 Hh). lra.
Qed.

Lemma aligned_inside_stage_witness :
  - (1 # 100) < y (alignItemToRows 3 overhang (JS.Num 300)) /\
  (h overhang <= 300 ->
   y (alignItemToRows 3 overhang (JS.Num 300))
   + h (alignItemToRows 3 overhang (JS.Num 300)) < 300 + (1 # 100)).
Proof.
  apply (aligned_inside_stage 3 300 overhang); [discriminate | reflexivity].
Defined.

(** X18. An item that is no taller than a row ends up flush against the
    bottom of a row: after alignment its bottom edge is within 0.01 of a
    baseline that is a whole number of row heights from the top (at most
    the row count), or the bottom of the stage. *)
Theorem aligned_on_row_line (rc H : Q) (item : PlanoItem) :
  0 < H -> 1 <= rc -> h item <= H / rc ->
  exists B : Q,
    (B == H \/
     exists n : Z, (1 <= n)%Z /\ inject_Z n <= rc /\ B == H / rc * inject_Z n) /\
    Qabs (y (alignItemToRows rc item (JS.Num H))
          + h (alignItemToRows rc item (JS.Num H)) - B) < 1 # 100.
Proof.
  intros HH Hrc Hfit.
  exists (baselineOf rc H (y item + h item)). split.
  - destruct (baseline_cases rc H HH Hrc (y item + h item))
      as [[Hc HB] | [[Hc [Hcr HB]] | [Hcr HB]]].
    + right. exists 1%Z. split; [lia|]. split; [exact Hrc|].
      rewrite HB. change (inject_Z 1) with 1. ring.
    + right. eexists. split; [exact Hc|]. split; [exact Hcr | exact HB].
    + now left.
  - pose proof (baseline_row rc H HH Hrc (y item + h item)) as Hrow.
    assert (HY : alignedY rc H item
                 == baselineOf rc H (y item + h item) - h item).
    { rewrite alignedY_baseline. revert Hfit Hrow.
      generalize (H / rc). intros rh Hfit Hrow.
      destruct (max_cases 0 (baselineOf rc H (y item + h item) - h item))
        as [[? ->]|[? ->]]; lra. }
    rewrite (alignItemToRows_guarded rc H item) by lra.
    destruct (JS.ltb (JS.abs (alignedY rc H item - y item)) (1 # 100))
      eqn:Hnear.
    + apply ltb_lt in Hnear. unfold JS.abs in Hnear.
      apply Qabs_Qlt_condition in Hnear. apply Qabs_Qlt_condition. lra.
    + unfold with_y. cbn [y h]. apply Qabs_Qlt_condition. lra.
Qed.

Lemma aligned_on_row_line_witness :
  exists B : Q,
    (B == 700 \/
     exists n : Z, (1 <= n)%Z /\ inject_Z n <= 3 /\ B == 700 / 3 * inject_Z n) /\
    Qabs (y (alignItemToRows 3 boxA (JS.Num 700))
          + h (alignItemToRows 3 boxA (JS.Num 700)) - B) < 1 # 100.
Proof.
  apply (aligned_on_row_line 3 700 boxA); [reflexivity | discriminate |].
  discriminate.
Defined.

(** ** Adding items *)

Lemma find_app_some {A : Type} (f : A -> bool) (l l' : list A) (v : A) :
  find f l = Some v -> find f (l ++ l') = Some v.
Proof.
  induction l as [|a l IH]; simpl; [discriminate|].
  destruct (f a); auto.
Qed.

Lemma find_In_some {A : Type} (f : A -> bool) (l : list A) (v : A) :
  In v l -> f v = true -> exists u, find f l = Some u.
Proof.
  intros Hin Hv. destruct (find f l) as [u|] eqn:E; [now exists u|].
  pose proof (find_none _ _ E v Hin). congruence.
Qed.

Lemma addedItem_id (st : State) (r : option Q) : id (addedItem st r) = nextId st.
Proof.
  unfold addedItem.
  pose proof (alignItemToRows_fixed (rowCount st)
                (baseItem (gridSize st) (List.length (items st) + 1))
                (JS.Num match r with
                        | Some r0 => r0
                        | None => height (stageSize st)
                        end)) as Hf.
  unfold fixedFields in Hf. now injection Hf.
Qed.

Lemma addItem_state (st : State) (r : option Q) :
  addItem st r
  = setSelectedId (setItems st (items st ++ [addedItem st r]))
                  (Some (nextId st)).
Proof. reflexivity. Qed.

(** X19. [addItem] appends one item after the existing ones, which it
    leaves as they are, gives it the id ["N" ++ (count + 1)], quantity 1
    and depth 25, and makes that id the selection.  If no existing item
    carries the id, the selected item is the new one; if one does, the
    selected item is the first existing item with that id, not the new
    one. *)
Theorem addItem_selects (st : State) (r : option Q) :
  items (addItem st r) = items st ++ [addedItem st r] /\
  selectedId (addItem st r) = Some (id (addedItem st r)) /\
  id (addedItem st r)
  = ("N" ++ numString (List.length (items st) + 1))%string /\
  qty (addedItem st r) = JS.Num 1 /\ depth (addedItem st r) = JS.Num 25 /\
  ((forall it, In it (items st) -> id it <> nextId st) ->
   selected (addItem st r) = Some (addedItem st r)) /\
  (forall old, In old (items st) -> id old = nextId st ->
   exists first, In first (items st) /\ id first = nextId st /\
                 selected (addItem st r) = Some first).
Proof.
  pose proof (addedItem_id st r) as Hid.
  pose proof (alignItemToRows_fixed (rowCount st)
                (baseItem (gridSize st) (List.length (items st) + 1))
                (JS.Num match r with
                        | Some r0 => r0
                        | None => height (stageSize st)
                        end)) as Hf.
  fold (addedItem st r) in Hf. unfold fixedFields in Hf.
  injection Hf as _ _ Hdepth Hqty _.
  rewrite addItem_state. simpl.
  split; [reflexivity|]. split; [now rewrite Hid|]. split; [exact Hid|].
  split; [exact Hqty|]. split; [exact Hdepth|]. split.
  - intros Hfresh. unfold selected. simpl. rewrite find_skip.
    + simpl. rewrite Hid. now rewrite String.eqb_refl.
    + apply Forall_forall. intros it Hin. apply String.eqb_neq.
      now apply Hfresh.
  - intros old Hin Hold. unfold selected. simpl.
    destruct (find_In_some (fun i => String.eqb (id i) (nextId st))
                           (items st) old Hin) as [first Hfirst].
    { now apply String.eqb_eq. }
    exists first. apply find_some in Hfirst as Hprop.
    destruct Hprop as [Hin' Heq]. apply String.eqb_eq in Heq.
    split; [exact Hin'|]. split; [exact Heq|].
    now apply find_app_some.
Qed.

Lemma addItem_selects_witness :
  selected (addItem initialState (Some 700))
  = Some (addedItem initialState (Some 700)).
Proof.
  apply (proj1 (proj2 (proj2 (proj2 (proj2 (proj2
           (addItem_selects initialState (Some 700)))))))).
  intros it [<- | [<- | []]]; discriminate.
Defined.

(** X20. Adding an item and deleting it at once gives back the item list:
    when the new id is not in use, [removeSelected] after [addItem] leaves
    exactly the items there were, with nothing selected. *)
Theorem add_then_remove (st : State) (r : option Q) :
  (forall it, In it (items st) -> id it <> nextId st) ->
  items (removeSelected (addItem st r)) = items st /\
  selectedId (removeSelected (addItem st r)) = None.
Proof.
  intros Hfresh.
  assert (Hsel : selected (addItem st r) = Some (addedItem st r)).
  { unfold selected. rewrite addItem_state. simpl. rewrite find_skip.
    - simpl. now rewrite addedItem_id, String.eqb_refl.
    - apply Forall_forall. intros it Hin. apply String.eqb_neq.
      now apply Hfresh. }
  unfold removeSelected. rewrite Hsel. simpl. split; [|reflexivity].
  rewrite filter_app. simpl. rewrite String.eqb_refl. simpl.
  rewrite app_nil_r. apply filter_all.
  apply Forall_forall. intros it Hin.
  apply negb_true_iff, String.eqb_neq. rewrite addedItem_id.
  now apply Hfresh.
Qed.

Lemma add_then_remove_witness :
  items (removeSelected (addItem initialState None)) = items initialState.
Proof.
  apply (add_then_remove initialState None).
  intros it [<- | [<- | []]]; discriminate.
Defined.

Lemma numString_injective (m n : nat) : numString m = numString n -> m = n.
Proof.
  unfold numString. intros E.
  apply (f_equal NilEmpty.uint_of_string) in E.
  rewrite !NilEmpty.usu in E. injection E as E.
  apply (f_equal Nat.of_uint) in E. now rewrite !Unsigned.of_to in E.
Qed.

Lemma nextId_length (st st' : State) :
  List.length (items st') = List.length (items st) -> nextId st' = nextId st.
Proof. unfold nextId. now intros ->. Qed.

(** X21. Ids do not stay unique across a deletion: starting from unique
    ids, with the next id not in use, adding an item, deleting one of the
    older items and adding again gives the two newest items the same id,
    because the id is numbered by the length of the list. *)
Theorem add_remove_add_duplicates (st : State) (r1 r2 : option Q)
    (victim : PlanoItem) :
  NoDup (map id (items st)) ->
  (forall it, In it (items st) -> id it <> nextId st) ->
  In victim (items st) ->
  exists l a b,
    items (addItem (removeSelected
                      (setSelectedId (addItem st r1) (Some (id victim)))) r2)
    = l ++ [a; b] /\
    id a = id b /\
    ~ NoDup (map id (items (addItem (removeSelected
                                       (setSelectedId (addItem st r1)
                                                      (Some (id victim))))
                                    r2))).
Proof.
  intros Hnd Hfresh Hin.
  destruct (in_split _ _ Hin) as (l1 & l2 & Hl).
  set (st1 := setSelectedId (addItem st r1) (Some (id victim))).
  assert (Hitems1 : items st1 = (l1 ++ victim :: l2) ++ [addedItem st r1]).
  { unfold st1. rewrite addItem_state. simpl. now rewrite Hl. }
  assert (Hsel : exists sel, selected st1 = Some sel /\ id sel = id victim).
  { unfold selected. replace (selectedId st1) with (Some (id victim))
      by reflexivity.
    destruct (find_In_some (fun i => String.eqb (id i) (id victim))
                           (items st1) victim) as [sel Hsel].
    - rewrite Hitems1. apply in_or_app. left. apply in_elt.
    - apply String.eqb_refl.
    - exists sel. split; [exact Hsel|].
      apply find_some in Hsel. now apply String.eqb_eq. }
  destruct Hsel as (sel & Hsel & Hid).
  assert (Hitems2 : items (removeSelected st1)
                    = (l1 ++ l2) ++ [addedItem st r1]).
  { unfold removeSelected. rewrite Hsel.
    unfold setSelectedId, setItems. cbn [items]. rewrite Hitems1, Hid.
    rewrite filter_app. f_equal.
    - apply filter_out_unique. now rewrite <- Hl.
    - simpl. rewrite addedItem_id.
      assert (Hne : id victim <> nextId st) by now apply Hfresh.
      apply not_eq_sym in Hne. apply String.eqb_neq in Hne.
      now rewrite Hne. }
  assert (Hlen : List.length (items (removeSelected st1))
                 = List.length (items st)).
  { rewrite Hitems2, Hl, !length_app. simpl. lia. }
  exists (l1 ++ l2), (addedItem st r1), (addedItem (removeSelected st1) r2).
  assert (Hsame : id (addedItem st r1)
                  = id (addedItem (removeSelected st1) r2)).
  { rewrite !addedItem_id. symmetry. now apply nextId_length. }
  assert (Hitems3 : items (addItem (removeSelected st1) r2)
                    = (l1 ++ l2)
                      ++ [addedItem st r1; addedItem (removeSelected st1) r2]).
  { rewrite addItem_state. simpl. rewrite Hitems2, <- app_assoc. reflexivity. }
  split; [exact Hitems3|]. split; [exact Hsame|].
  rewrite Hitems3, map_app. simpl. rewrite Hsame. intros Hdup.
  apply NoDup_app_remove_l in Hdup. inversion Hdup as [|? ? Hnot _].
  apply Hnot. now left.
Qed.

Lemma add_remove_add_duplicates_witness :
  exists l a b,
    items (addItem (removeSelected
                      (setSelectedId (addItem initialState None)
                                     (Some (id boxA)))) None)
    = l ++ [a; b] /\
    id a = id b /\
    ~ NoDup (map id (items (addItem (removeSelected
                                       (setSelectedId
                                          (addItem initialState None)
                                          (Some (id boxA))))
                                    None))).
Proof.
  apply (add_remove_add_duplicates initialState None None boxA).
  - repeat constructor; simpl; intuition discriminate.
  - intros it [<- | [<- | []]]; discriminate.
  - left. reflexivity.
Defined.

Lemma addItem_ids_in_order (st : State) (r : option Q) :
  idsInOrder st -> idsInOrder (addItem st r).
Proof.
  intros [Hnd Hle]. unfold idsInOrder.
  rewrite addItem_state. simpl.
  rewrite map_app, length_app. simpl. rewrite addedItem_id. split.
  - apply NoDup_app; [exact Hnd | repeat constructor; auto |].
    intros a Ha [<- | []]. apply Hle in Ha. lia.
  - intros n Hn. apply in_app_or in Hn. destruct Hn as [Hn | [Hn | []]].
    + apply Hle in Hn. lia.
    + unfold nextId in Hn. injection Hn as Hn.
      apply numString_injective in Hn. lia.
Qed.

(** X22. As long as nothing is deleted, ids stay unique: if the ids are
    unique and every id of the form [N<n>] has [n] at most the number of
    items, the same holds after any number of additions.  The two initial
    items are such a list. *)
Theorem adds_keep_ids_unique (rs : list (option Q)) (st : State) :
  idsInOrder st ->
  idsInOrder (addItems st rs) /\ NoDup (map id (items (addItems st rs))).
Proof.
  intros Hinv.
  assert (H : idsInOrder (addItems st rs)); [|split; [exact H | apply H]].
  revert st Hinv. induction rs as [|r rs IH]; intros st Hinv; [exact Hinv|].
  unfold addItems in *. simpl. apply IH. now apply addItem_ids_in_order.
Qed.

Lemma initial_ids_in_order : idsInOrder initialState.
Proof.
  split.
  - repeat constructor; simpl; intuition discriminate.
  - intros n [Hn | [Hn | []]]; discriminate.
Qed.

Lemma adds_keep_ids_unique_witness :
  NoDup (map id (items (addItems initialState [None; Some 700; None]))).
Proof.
  apply (adds_keep_ids_unique [None; Some 700; None] initialState).
  apply initial_ids_in_order.
Defined.

(** X23. A new item is on top: outside measure mode, a pointer-down
    anywhere inside the item that [addItem] has just appended selects it
    and starts a drag of it, whatever lies underneath. *)
Theorem added_item_on_top (st : State) (r : option Q) (px py : Q) :
  measureMode st = false -> contains px py (addedItem st r) ->
  selectedId (onPointerDown (addItem st r) px py) = Some (nextId st) /\
  exists d, drag (onPointerDown (addItem st r) px py) = Some d /\
            drag_id d = nextId st.
Proof.
  intros Hm Hin.
  rewrite (pointerDown_grabs (addItem st r) px py (items st) []
                             (addedItem st r)); auto.
  simpl. rewrite addedItem_id. split; [reflexivity|].
  eexists. split; reflexivity.
Qed.

Lemma added_item_on_top_witness :
  selectedId (onPointerDown (addItem initialState None) 130 230)
  = Some (nextId initialState).
Proof.
  apply (added_item_on_top initialState None 130 230).
  - reflexivity.
  - unfold contains. vm_compute. intuition discriminate.
Defined.

(** ** Alerts and the toolbar settings *)

(** X24. More rows never clear a height alert: on a measured stage, an
    item that is on the height alert list stays on it when the row count is
    raised. *)
Theorem more_rows_keep_height_alerts (st : State) (rc' : Q) (it : PlanoItem) :
  0 < height (stageSize st) -> 0 < rowCount st -> rowCount st <= rc' ->
  In it (heightAlerts st) -> In it (heightAlerts (setRowCount st rc')).
Proof.
  intros HH Hrc Hle.
  assert (Hnz : ~ height (stageSize st) == 0) by lra.
  assert (Hrc' : 0 < rc') by lra.
  unfold heightAlerts, isHeightExceeded.
  rewrite (rowHeightPx_some st Hrc Hnz).
  rewrite (rowHeightPx_some (setRowCount st rc') Hrc' Hnz).
  simpl. rewrite !filter_In, !ltb_lt. intros [Hin Hex]. split; [exact Hin|].
  assert (Hrows : height (stageSize st) / rc' <= height (stageSize st) / rowCount st).
  { apply Qle_shift_div_r; [exact Hrc'|].
    assert (Hx : 0 < height (stageSize st) / rowCount st)
      by (apply Qlt_shift_div_l; lra).
    assert (Ex : height (stageSize st) / rowCount st * rowCount st
                 == height (stageSize st)) by (field; lra).
    nra. }
  lra.
Qed.

Lemma more_rows_keep_height_alerts_witness :
  In boxB (heightAlerts (setRowCount (measuredState 400 3) 6)).
Proof.
  apply (more_rows_keep_height_alerts (measuredState 400 3) 6 boxB).
  - reflexivity.
  - reflexivity.
  - discriminate.
  - vm_compute. left. reflexivity.
Defined.

(** X25. A deeper container never raises a depth alert: every item on the
    depth alert list after the container depth has been raised was on it
    before. *)
Theorem deeper_container_fewer_alerts (st : State) (c' : Q) (it : PlanoItem) :
  containerDepth st <= c' ->
  In it (depthAlerts (setContainerDepth st c')) -> In it (depthAlerts st).
Proof.
  intros Hle. unfold depthAlerts. simpl. rewrite !filter_In.
  intros [Hin Hex]. split; [exact Hin|].
  unfold depthExceeded in *.
  destruct (or_zero_is_num (qty it)) as [q Eq].
  destruct (or_zero_is_num (depth it)) as [d Ed].
  rewrite Eq, Ed in *. simpl in *.
  apply ltb_lt in Hex. apply ltb_lt. lra.
Qed.

Lemma deeper_container_fewer_alerts_witness :
  In (stacked 5 20)
     (depthAlerts (setItems initialState [stacked 5 20])).
Proof.
  apply (deeper_container_fewer_alerts
           (setItems initialState [stacked 5 20]) 60 (stacked 5 20)).
  - discriminate.
  - vm_compute. left. reflexivity.
Defined.

(** * Row alignment under rounding *)









Lemma abs_lt_iff (v e : Q) : JS.ltb (JS.abs v) e = true <-> - e < v /\ v < e.
Proof. rewrite ltb_lt. unfold JS.abs. apply Qabs_Qlt_condition. Qed.







(** Where a step is rounded the second alignment can move the item again
    although the floor at 0 is not involved: on a stage 500 high with 9
    rows, in binary64, an item at [y = 40] of height 120 is put at
    46.666666666666686, and from there at 102.22222222222223, because the
    quotient of its bottom edge and the row height comes out just above
    3. *)
Lemma binary64_alignment_moves_twice :
  ~ unrounded binary64 9 500 (with_y boxA 40) /\
  ~ stoppedShort (binary64 (1 # 100)) 9 500 (with_y boxA 40) /\
  y (alignItemToRowsR binary64 9 (with_y boxA 40) (JS.Num 500))
  == binary64 (46666666666666686 # 1000000000000000) /\
  y (alignItemToRowsR binary64 9
       (alignItemToRowsR binary64 9 (with_y boxA 40) (JS.Num 500))
       (JS.Num 500))
  == binary64 (10222222222222223 # 100000000000000) /\
  3 < binary64
        (binary64 (y (alignItemToRowsR binary64 9 (with_y boxA 40)
                                        (JS.Num 500)) + 120)
         / binary64 (500 / 9)).
Proof.
  split; [|split; [|split; [|split]]].
  - intros [Hex _]. unfold exactly in Hex.
    apply Forall_inv in Hex. vm_compute in Hex. discriminate Hex.
  - intros (Hshort & _). vm_compute in Hshort. discriminate Hshort.
  - vm_compute. reflexivity.
  - vm_compute. reflexivity.
  - vm_compute. reflexivity.
Qed.

(** * Alignment in the gestures and the effect *)

(** After an alignment on a measured stage the item is not above the top
    edge by 0.01 or more, and if it is no taller than the stage its bottom
    edge is not below the bottom of the stage by 0.01 or more; nothing but
    [y] has changed. *)
Lemma alignItemToRows_on_stage (rc H : Q) (item : PlanoItem) :
  ~ H == 0 -> 0 < rc ->
  fixedFields (alignItemToRows rc item (JS.Num H)) = fixedFields item /\
  x (alignItemToRows rc item (JS.Num H)) = x item /\
  w (alignItemToRows rc item (JS.Num H)) = w item /\
  h (alignItemToRows rc item (JS.Num H)) = h item /\
  - (1 # 100) < y (alignItemToRows rc item (JS.Num H)) /\
  (h item <= H ->
   y (alignItemToRows rc item (JS.Num H)) + h item < H + (1 # 100)).
Proof.
  intros HH Hrc. rewrite (alignItemToRows_guarded rc H item HH Hrc).
  pose proof (baselineOf_le rc H (y item + h item)) as HB.
  assert (HY : 0 <= alignedY rc H item /\
               (h item <= H -> alignedY rc H item + h item <= H)).
  { rewrite alignedY_baseline.
    destruct (max_cases 0 (baselineOf rc H (y item + h item) - h item))
      as [[? ->]|[? ->]]; split; intros; lra. }
  destruct HY as [HY0 HY1].
  destruct (JS.ltb (JS.abs (alignedY rc H item - y item)) (1 # 100)) eqn:Hnear.
  - apply abs_lt_iff in Hnear.
    repeat (split; [reflexivity|]). split; [lra|].
    intros Hh. specialize (HY1 Hh). lra.
  - unfold with_y. cbn [y x w h]. repeat (split; [reflexivity|]).
    split; [lra|]. intros Hh. specialize (HY1 Hh). lra.
Qed.

(** X15. A pointer-up that ends a drag clears the drag and, on a measured
    stage with a positive row count, replaces every item that carries the
    dragged id by its row alignment, after a resize just as after a move:
    such an item keeps its x, width, height and every other field, and
    ends not more than 0.01 above the top edge and, if it is no taller
    than the stage, not more than 0.01 below the bottom edge; every other
    item stays as it is.  On an unmeasured stage the items are left
    alone. *)
Theorem drop_aligns (st : State) (d : DragState) :
  measureMode st && active (measure st) = false -> drag st = Some d ->
  drag (onPointerUp st) = None /\
  (height (stageSize st) == 0 -> items (onPointerUp st) = items st) /\
  (~ height (stageSize st) == 0 -> 0 < rowCount st ->
   forall (i : nat) (it : PlanoItem),
     nth_error (items st) i = Some it ->
     (id it <> drag_id d -> nth_error (items (onPointerUp st)) i = Some it) /\
     (id it = drag_id d ->
      exists r,
        nth_error (items (onPointerUp st)) i = Some r /\
        r = alignItemToRows (rowCount st) it (JS.Num (height (stageSize st))) /\
        fixedFields r = fixedFields it /\
        x r = x it /\ w r = w it /\ h r = h it /\
        - (1 # 100) < y r /\
        (h it <= height (stageSize st) ->
         y r + h it < height (stageSize st) + (1 # 100)))).
Proof.
  intros Hm Hd. unfold onPointerUp. rewrite Hm, Hd.
  split; [reflexivity|]. split.
  - intros Hz. apply truthy_num_false in Hz. now rewrite Hz.
  - intros HH Hrc i it Hi.
    assert (Ht : JS.truthy (JS.Num (height (stageSize st))) = true)
      by now apply truthy_num.
    rewrite Ht. simpl. rewrite nth_error_map, Hi. simpl. split.
    + intros Hne. apply String.eqb_neq in Hne. now rewrite Hne.
    + intros He. apply String.eqb_eq in He. rewrite He.
      eexists. split; [reflexivity|]. split; [reflexivity|].
      now apply alignItemToRows_on_stage.
Qed.

Lemma drop_aligns_witness :
  drag (onPointerUp (onPointerDown (measuredState 700 3) 70 70)) = None.
Proof.
  apply (drop_aligns (onPointerDown (measuredState 700 3) 70 70)
                     (mkDrag "A" 10 10 false)); reflexivity.
Defined.

(** X16. The effect that re-aligns all items does nothing on an unmeasured
    stage and nothing when the row count is not positive.  On a measured
    stage with a positive row count it keeps the number and order of the
    items and, of every item, the x, width, height and every other field
    but [y]; afterwards no item is 0.01 or more above the top edge, and no
    item that is no taller than the stage reaches 0.01 or more below the
    bottom edge. *)
Theorem realignItems_on_stage (st : State) :
  (height (stageSize st) == 0 \/ rowCount st <= 0 -> realignItems st = st) /\
  (~ height (stageSize st) == 0 -> 0 < rowCount st ->
   List.length (items (realignItems st)) = List.length (items st) /\
   forall (i : nat) (it : PlanoItem),
     nth_error (items st) i = Some it ->
     exists r,
       nth_error (items (realignItems st)) i = Some r /\
       fixedFields r = fixedFields it /\
       x r = x it /\ w r = w it /\ h r = h it /\
       - (1 # 100) < y r /\
       (h it <= height (stageSize st) ->
        y r + h it < height (stageSize st) + (1 # 100))).
Proof.
  unfold realignItems. split.
  - intros [Hz | Hrc].
    + apply truthy_num_false in Hz. now rewrite Hz.
    + destruct (negb (JS.truthy (JS.Num (height (stageSize st)))));
        [reflexivity|].
      assert (Hmap : map (fun it =>
                            alignItemToRows (rowCount st) it
                              (JS.Num (height (stageSize st))))
                         (items st) = items st).
      { rewrite <- (map_id (items st)) at 2. apply map_ext. intros it.
        unfold alignItemToRows. apply Qle_bool_iff in Hrc.
        now rewrite Hrc, orb_true_r. }
      rewrite Hmap. apply setItems_same.
  - intros HH Hrc.
    assert (Ht : JS.truthy (JS.Num (height (stageSize st))) = true)
      by now apply truthy_num.
    rewrite Ht. simpl. split; [apply length_map|].
    intros i it Hi. rewrite nth_error_map, Hi. simpl.
    eexists. split; [reflexivity|]. now apply alignItemToRows_on_stage.
Qed.

Lemma realignItems_on_stage_witness :
  realignItems initialState = initialState /\
  List.length (items (realignItems (measuredState 700 3))) = 2%nat.
Proof.
  split.
  - apply (proj1 (realignItems_on_stage initialState)). left. reflexivity.
  - apply (proj2 (realignItems_on_stage (measuredState 700 3)));
      [discriminate | reflexivity].
Defined.

(** * Two items with one id *)

Lemma sameBox_refl (a : PlanoItem) : sameBox a a.
Proof. repeat split; reflexivity. Qed.

(** The state is the one described: Box B aligned to the second row, the
    older N3 where it was dragged to, the newer N3 where [addItem] puts
    it, and the id N3 selected. *)
Lemma twinsState_items :
  Forall2 sameBox (items twinsState) [with_y boxB 240; olderTwin; newerTwin] /\
  selectedId twinsState = Some "N3"%string.
Proof.
  split; [|reflexivity]. vm_compute items.
  repeat (apply Forall2_cons; [repeat split; reflexivity|]).
  apply Forall2_nil.
Qed.

(** C6.  With two items of one id in the list, a move drag of the upper
    one moves the other one as well: the pointer goes down at (130, 330),
    where only the newer N3 lies, and moves to (150, 350); both the newer
    N3 and the older N3, which was never under the pointer, are committed
    at (140, 340). *)
Theorem drag_moves_both_twins :
  Forall2 sameBox (items twinsState) [with_y boxB 240; olderTwin; newerTwin] /\
  contains 130 330 newerTwin /\ ~ contains 130 330 olderTwin /\
  ~ contains 130 330 (with_y boxB 240) /\
  (exists d, drag (onPointerDown twinsState 130 330) = Some d /\
             drag_id d = "N3"%string /\ resizing d = false /\
             offsetX d == 10 /\ offsetY d == 10) /\
  Forall2 sameBox
    (items (handleAll twinsState [PointerDown 130 330; PointerMove 150 350]))
    [with_y boxB 240; with_xy olderTwin 140 340; with_xy newerTwin 140 340] /\
  ~ x (with_xy olderTwin 140 340) == x olderTwin.
Proof.
  split; [apply twinsState_items|].
  split; [unfold contains; simpl; lra|].
  split; [unfold contains; simpl; lra|].
  split; [unfold contains; simpl; lra|].
  split.
  - eexists. split; [vm_compute; reflexivity|]. repeat split; reflexivity.
  - split; [|discriminate]. vm_compute items.
    repeat (apply Forall2_cons; [repeat split; reflexivity|]).
    apply Forall2_nil.
Qed.

(** C7.  With two items of one id in the list, the item that a
    pointer-down selects is not the top-most one under the pointer: at
    (210, 330) both N3 items contain the pointer and the newer one is the
    last in the list, so the hit test finds it; but the selection is kept
    by id, and the selected item of the component is the older N3, the
    lower of the two. *)
Theorem click_selects_lower_twin :
  Forall2 sameBox (items twinsState) [with_y boxB 240; olderTwin; newerTwin] /\
  contains 210 330 olderTwin /\ contains 210 330 newerTwin /\
  ~ contains 210 330 (with_y boxB 240) /\
  (exists top, topItem 210 330 (items twinsState) = Some top /\
               sameBox top newerTwin) /\
  selectedId (onPointerDown twinsState 210 330) = Some "N3"%string /\
  (exists sel, selected (onPointerDown twinsState 210 330) = Some sel /\
               sameBox sel olderTwin) /\
  ~ sameBox olderTwin newerTwin.
Proof.
  split; [apply twinsState_items|].
  split; [unfold contains; simpl; lra|].
  split; [unfold contains; simpl; lra|].
  split; [unfold contains; simpl; lra|].
  split; [|split; [reflexivity|split]].
  - eexists. split; [vm_compute; reflexivity|]. repeat split; reflexivity.
  - eexists. split; [vm_compute; reflexivity|]. repeat split; reflexivity.
  - intros (_ & Hx & _). discriminate Hx.
Qed.

(** C8.  With two items of one id in the list, deleting the selected item
    removes both: [addItem] has just selected the id N3, and
    [removeSelected] takes the list of three items to the one item
    Box B. *)
Theorem delete_removes_both_twins :
  Forall2 sameBox (items twinsState) [with_y boxB 240; olderTwin; newerTwin] /\
  selectedId twinsState = Some "N3"%string /\
  (exists sel, selected twinsState = Some sel /\ sameBox sel olderTwin) /\
  Forall2 sameBox (items (removeSelected twinsState)) [with_y boxB 240] /\
  List.length (items twinsState) = 3%nat /\
  List.length (items (removeSelected twinsState)) = 1%nat /\
  selectedId (removeSelected twinsState) = None.
Proof.
  split; [apply twinsState_items|]. split; [reflexivity|]. split.
  - eexists. split; [vm_compute; reflexivity|]. repeat split; reflexivity.
  - split; [|repeat split; reflexivity]. vm_compute items.
    repeat (apply Forall2_cons; [repeat split; reflexivity|]).
    apply Forall2_nil.
Qed.
